(** * flet_tray: menu normalisation, action registry and dispatch

    A shallow embedding of [src/flet_tray/tray.py].  Python values that
    reach the module from callers or from the wire are untyped, so they are
    modelled by a small universe [pyval]; the process-wide registry
    [_ACTIONS] is a finite map from names to callbacks; code that prints,
    calls user callbacks or raises runs in a writer/exception monad [M]
    whose trace records every observable step. *)

From Stdlib Require Import ZArith.
From stdpp Require Import base strings list gmap.

Local Open Scope string_scope.
Local Set Warnings "-register-all".

(** ** Python values *)

(** The values a menu description or an event payload is made of.  A
    [dict] keeps its entries as an association list whose first entry for
    a key is the one [get] finds. *)
Inductive pyval : Type :=
  | VNone
  | VBool (b : bool)
  | VInt (z : Z)
  | VStr (s : string)
  | VList (l : list pyval)
  | VDict (d : list (string * pyval)).

(** Truth value testing, as [bool(v)], [if v], [not v], [v or w] use it. *)
Definition truthy (v : pyval) : bool :=
  match v with
  | VNone => false
  | VBool b => b
  | VInt z => negb (Z.eqb z 0)
  | VStr s => negb (String.eqb s "")
  | VList l => match l with [] => false | _ => true end
  | VDict d => match d with [] => false | _ => true end
  end.

(** [a or b] *)
Definition py_or (a b : pyval) : pyval := if truthy a then a else b.

(** [d.get(k, dflt)] on the entries of a dict, the looked-up value being
    handed to [f].  Recursive functions over [pyval] go through this
    combinator so that their recursion stays structural. *)
Definition dict_get_with {A : Type} (f : pyval -> A) (dflt : A)
    (d : list (string * pyval)) (k : string) : A :=
  (fix go (d : list (string * pyval)) : A :=
     match d with
     | [] => dflt
     | (k', v) :: rest => if String.eqb k k' then f v else go rest
     end) d.

(** [d.get(k)]: the value under [k], [None] when the key is missing. *)
Definition dict_get (d : list (string * pyval)) (k : string) : pyval :=
  dict_get_with (fun v => v) VNone d k.

(** [d.get(k, False)] *)
Definition dict_get_or_False (d : list (string * pyval)) (k : string) : pyval :=
  dict_get_with (fun v => v) (VBool false) d k.

(** ** Exceptions *)

(** The exceptions that derive from Python's [Exception] class, the class
    every [except Exception] clause of the module names; the string is the
    message an f-string prints. *)
Inductive exn : Type :=
  | AttributeError (msg : string)
  | TypeError (msg : string)
  | UserError (msg : string).

(** Whatever a call of user code can raise: an exception deriving from
    [Exception], or one of the exceptions that derive from [BaseException]
    alone and that no [except Exception] clause catches, as [sys.exit()]
    and an interrupt from the keyboard raise them. *)
Inductive raised : Type :=
  | Exc (e : exn)
  | SystemExit (code : pyval)
  | KeyboardInterrupt.

(** How a call ends: it returns a value, or raises. *)
Inductive result (E A : Type) : Type :=
  | Ok (a : A)
  | Raise (e : E).
Arguments Ok {E A} a.
Arguments Raise {E A} e.

(** The outcome of the module's own pure code and of a call into a library
    or the host framework, whose failures derive from [Exception]. *)
Definition outcome : Type -> Type := result exn.

(** The outcome of code that runs user callbacks. *)
Definition effect : Type -> Type := result raised.

(** A failure of the first kind, met where user callbacks run. *)
Definition lift {A : Type} (r : outcome A) : effect A :=
  match r with
  | Ok a => Ok a
  | Raise e => Raise (Exc e)
  end.

(** ** Menu nodes *)

(** The dataclass [MenuNode].  The normaliser stores whatever the
    description holds, so [text], [action] and [icon] are Python values. *)
Inductive MenuNode : Type :=
  mkMenuNode {
    text : pyval;
    action : pyval;
    disabled : bool;
    checked : bool;
    children : list MenuNode;
    icon : pyval
  }.

(** The label of one record: [item.get("text") or item.get("label") or
    item.get("title") or "Menu item"]. *)
Definition label_of (d : list (string * pyval)) : pyval :=
  py_or (dict_get d "text")
    (py_or (dict_get d "label")
       (py_or (dict_get d "title") (VStr "Menu item"))).

(** [_normalise_menu(items)].  [for item in items or []] runs no iteration
    on a falsy argument, iterates the elements of a list, and fails on
    anything else: a truthy number is not iterable, and a string or a dict
    yields strings, on which [item.get] raises.  In the loop body every
    [item.get] needs [item] to be a dict.  The children are
    [_normalise_menu(child_data or [])] with [child_data] the value under
    ["items"] unless that is falsy, then the value under ["children"]; the
    recursive call is made where the value is looked up, and
    [normalise_cons] below states the loop in the shape of the source. *)
Fixpoint _normalise_menu (items : pyval) : outcome (list MenuNode) :=
  match items with
  | VList l =>
      (fix each (l : list pyval) : outcome (list MenuNode) :=
         match l with
         | [] => Ok []
         | item :: rest =>
             match item with
             | VDict d =>
                 let sub :=
                   if truthy (dict_get d "items")
                   then dict_get_with _normalise_menu (Ok []) d "items"
                   else dict_get_with _normalise_menu (Ok []) d "children" in
                 match sub with
                 | Raise e => Raise e
                 | Ok kids =>
                     let node :=
                       {| text := label_of d;
                          action := dict_get d "action";
                          disabled := truthy (dict_get_or_False d "disabled");
                          checked := truthy (dict_get_or_False d "checked");
                          icon := dict_get d "icon";
                          children := kids |} in
                     match each rest with
                     | Raise e => Raise e
                     | Ok nodes => Ok (node :: nodes)
                     end
                 end
             | _ => Raise (AttributeError "object has no attribute 'get'")
             end
         end) l
  | VNone => Ok []
  | VBool b => if b then Raise (TypeError "'bool' object is not iterable") else Ok []
  | VInt z =>
      if Z.eqb z 0 then Ok [] else Raise (TypeError "'int' object is not iterable")
  | VStr s =>
      if String.eqb s "" then Ok []
      else Raise (AttributeError "'str' object has no attribute 'get'")
  | VDict d =>
      match d with
      | [] => Ok []
      | _ => Raise (AttributeError "'str' object has no attribute 'get'")
      end
  end.

(** [menu_to_dict(items)]: every node becomes a dict with the keys
    [text], [action], [disabled], [checked], and [items] when the node has
    children.  [node_to_dict] is the body of the loop, [menu_to_dict] the
    loop; the recursion descends through the node. *)
Fixpoint node_to_dict (node : MenuNode) : pyval :=
  let data :=
    [("text", text node); ("action", action node);
     ("disabled", VBool (disabled node)); ("checked", VBool (checked node))] in
  match children node with
  | [] => VDict data
  | _ :: _ =>
      let emitted :=
        (fix menu_to_dict (items : list MenuNode) : list pyval :=
           match items with
           | [] => []
           | child :: rest => node_to_dict child :: menu_to_dict rest
           end) (children node) in
      VDict (data ++ [("items", VList emitted)])%list
  end.

Definition menu_to_dict (items : list MenuNode) : list pyval :=
  map node_to_dict items.

(** ** The action registry *)

Definition EXTENSION_NAME : string := "tray".

(** An action callback is a function object: called with a payload it
    returns or raises, anything that user code can raise.  What else it
    does is its own business and is not modelled. *)
Definition ActionCallback : Type := pyval -> effect unit.

(** The object a caller hands to [register_action]: [callable(fn)] holds
    for function objects only. *)
Inductive pyobj : Type :=
  | Callable (fn : ActionCallback)
  | NotCallable (v : pyval).

(** [register_action(name, fn)] on the module-level dict [_ACTIONS]. *)
Definition register_action (name : string) (fn : pyobj)
    (_ACTIONS : gmap string ActionCallback) : gmap string ActionCallback :=
  if String.eqb name "" then _ACTIONS
  else match fn with
       | NotCallable _ => _ACTIONS
       | Callable f => <[name := f]> _ACTIONS
       end.

(** [registered_actions()]: a copy of the dict. *)
Definition registered_actions (_ACTIONS : gmap string ActionCallback) :
    gmap string ActionCallback := _ACTIONS.

(** ** Effects *)

(** An event from the host framework's extension channel, read with
    [getattr(evt, attr, None)]: a missing attribute reads as [None]. *)
Record ExtEvent : Type := mkExtEvent {
  evt_extension_name : pyval;
  evt_name : pyval;
  evt_action : pyval;
  evt_data : pyval
}.

(** The lines the module prints, one constructor per f-string. *)
Inductive log_line : Type :=
  | NoHandler (name : pyval)
      (* Tray action '{name}' has no registered handler *)
  | ActionFailed (name : pyval) (exc : exn)
      (* Tray action '{name}' failed: {exc} *)
  | MenuHasNoItems
      (* TrayApp: menu has no items *)
  | PystrayMenuItems (debug_labels : list pyval)
      (* TrayApp: pystray menu items -> {debug_labels} *)
  | MenuNodes (texts : list pyval)
      (* TrayApp: menu nodes -> {[n.text for n in self._menu_nodes]} *)
  | BuildingMenu (actions : gset string)
      (* TrayApp: building menu with actions={list(_ACTIONS.keys())} *)
  | IconFailed (exc : exn)
      (* TrayApp: failed to create Icon: {exc}, then the traceback *)
  | Importing
      (* Tray extension: importing 'tray' *)
  | ImportFailed (exc : exn)
      (* tray extension import failed: {exc} *)
  | ExtHandlerFailed (action_name : pyval) (exc : exn).
      (* tray extension handler '{action_name}' failed: {exc} *)

(** What a run of the module's code does that an observer can see. *)
Inductive event : Type :=
  | Print (line : log_line)
  | Get (key : pyval)                             (* _ACTIONS.get(key) *)
  | Call (fn : ActionCallback) (payload : pyval)  (* fn(payload) *)
  | CallPrev (evt : ExtEvent).                    (* prev_handler(evt) *)

(** Computations: the trace so far and how the computation ended. *)
Definition M (A : Type) : Type := list event * effect A.

Definition ret {A : Type} (a : A) : M A := ([], Ok a).

Definition raise {A : Type} (e : raised) : M A := ([], Raise e).

Definition bind {A B : Type} (m : M A) (k : A -> M B) : M B :=
  match m with
  | (tr, Ok a) => let '(tr', r) := k a in ((tr ++ tr')%list, r)
  | (tr, Raise e) => (tr, Raise e)
  end.

Notation "x <- m ;; k" := (bind m (fun x => k))
  (at level 100, m at next level, k at level 200, right associativity).

(** [try: body  except Exception as exc: handler(exc)]: the handler runs
    on an exception that derives from [Exception]; any other goes on to the
    caller. *)
Definition try_except {A : Type} (body : M A) (handler : exn -> M A) : M A :=
  match body with
  | (tr, Ok a) => (tr, Ok a)
  | (tr, Raise (Exc e)) => let '(tr', r) := handler e in ((tr ++ tr')%list, r)
  | (tr, Raise e) => (tr, Raise e)
  end.

Definition print (line : log_line) : M unit := ([Print line], Ok tt).

Definition call (fn : ActionCallback) (payload : pyval) : M unit :=
  ([Call fn payload], fn payload).

(** [_ACTIONS.get(key)]: the registry's keys are strings, so any other
    hashable key finds nothing, and a list or a dict is unhashable. *)
Definition actions_get (_ACTIONS : gmap string ActionCallback) (key : pyval) :
    M (option ActionCallback) :=
  match key with
  | VStr s => ([Get key], Ok (_ACTIONS !! s))
  | VList _ => ([Get key], Raise (Exc (TypeError "unhashable type: 'list'")))
  | VDict _ => ([Get key], Raise (Exc (TypeError "unhashable type: 'dict'")))
  | _ => ([Get key], Ok None)
  end.

(** [for x in xs: out.append(f(x))], stopping at the first exception. *)
Fixpoint for_each {A B : Type} (f : A -> M B) (xs : list A) : M (list B) :=
  match xs with
  | [] => ret []
  | x :: rest =>
      y <- f x ;;
      ys <- for_each f rest ;;
      ret (y :: ys)
  end.

(** ** The native menu builder *)

(** The closure [lambda _i: node.checked].  Its free variable [node] is the
    loop variable of the enclosing [_build_pystray_menu] call: one cell
    shared by every lambda made in that call, read each time the native
    library asks for the state.  The library asks when it shows the menu,
    after the loop has run to its end, so [cell] is the node the loop
    variable was left at.  Nodes are values here: an assignment to the
    attribute after the build, which the lambda would see, is not
    modelled. *)
Inductive checked_lambda : Type :=
  | CheckedOf (cell : MenuNode).

Definition call_checked (c : checked_lambda) : bool :=
  match c with CheckedOf node => checked node end.

(** What [pystray.MenuItem] is given.  [Item] carries the closure [_cb]
    through its two bound defaults [fn=callback] and [name=node.action],
    which Python evaluates when the [def] runs; [SubmenuItem] carries the
    nested [pystray.Menu] in the place of an action. *)
Inductive MenuItem : Type :=
  | Item (label : pyval) (fn : option ActionCallback) (name : pyval)
      (enabled : bool) (checked_cb : option checked_lambda) (default : bool)
  | SubmenuItem (label : pyval) (submenu : list MenuItem)
      (enabled : bool) (default : bool).

(** The body of [_cb], run when the native library fires the item. *)
Definition _cb (fn : option ActionCallback) (name : pyval) : M unit :=
  try_except
    match fn with
    | Some f => call f (VDict [("action", name)])
    | None => print (NoHandler name)
    end
    (fun exc => print (ActionFailed name exc)).

(** The end of [_build_pystray_menu]: the two prints and the [Menu]. *)
Definition finish_menu (debug_labels : list pyval) (menu_items : list MenuItem) :
    M (list MenuItem) :=
  match menu_items with
  | [] => _ <- print MenuHasNoItems ;; ret []
  | _ :: _ => _ <- print (PystrayMenuItems debug_labels) ;; ret menu_items
  end.

(** One turn of the loop of [_build_pystray_menu], [loop_end] being the
    node the loop variable holds once the loop is over. *)
Fixpoint build_item (_ACTIONS : gmap string ActionCallback)
    (loop_end : option MenuNode) (node : MenuNode) : M MenuItem :=
  match children node with
  | _ :: _ =>
      menu_items <-
        for_each (build_item _ACTIONS (last (children node))) (children node) ;;
      submenu <- finish_menu (map text (children node)) menu_items ;;
      ret (SubmenuItem (text node) submenu (negb (disabled node)) false)
  | [] =>
      callback <- actions_get _ACTIONS (py_or (action node) (VStr "")) ;;
      let checked_cb :=
        if checked node then CheckedOf <$> loop_end else None in
      ret (Item (text node) callback (action node) (negb (disabled node))
             checked_cb false)
  end.

(** [_build_pystray_menu(nodes)] *)
Definition _build_pystray_menu (_ACTIONS : gmap string ActionCallback)
    (nodes : list MenuNode) : M (list MenuItem) :=
  menu_items <- for_each (build_item _ACTIONS (last nodes)) nodes ;;
  finish_menu (map text nodes) menu_items.

(** What the native library does with a click on an item: it runs the
    item's action when that is a callable, and opens the nested menu, running
    nothing, when it is a menu. *)
Definition click (item : MenuItem) : M unit :=
  match item with
  | Item _ fn name _ _ _ => _cb fn name
  | SubmenuItem _ _ _ _ => ret tt
  end.

(** The [checked] property of a built item: the callback's answer, [None]
    when the item was given no callback. *)
Definition checked_state (item : MenuItem) : option bool :=
  match item with
  | Item _ _ _ _ checked_cb _ => call_checked <$> checked_cb
  | SubmenuItem _ _ _ _ => None
  end.

(** ** The extension bridge *)

(** [v != EXTENSION_NAME] *)
Definition differs_from_extension_name (v : pyval) : bool :=
  match v with
  | VStr s => negb (String.eqb s EXTENSION_NAME)
  | _ => true
  end.

Section Handler.

(** [json.loads]: [None] when it raises. *)
Variable json_loads : string -> option pyval.

(** The value under [evt.data], decoded once when it is a string. *)
Definition event_payload (evt : ExtEvent) : pyval :=
  match evt_data evt with
  | VStr s => match json_loads s with
              | Some v => v
              | None => VStr s
              end
  | v => v
  end.

(** The action name: [evt.name], else [evt.action], else the payload's
    ["action"] entry when the payload is a dict. *)
Definition event_action_name (evt : ExtEvent) : pyval :=
  let action_name := py_or (evt_name evt) (evt_action evt) in
  match event_payload evt with
  | VDict d =>
      if negb (truthy action_name) then dict_get d "action" else action_name
  | _ => action_name
  end.

(** The handler [register_extension] installs;  [prev_handler] is
    [Some] when the handler found on the page is callable; it is the
    application's or an earlier bridge's, and can raise what a callback
    can. *)
Definition _handle_ext (prev_handler : option (ExtEvent -> effect unit))
    (_ACTIONS : gmap string ActionCallback) (evt : ExtEvent) : M unit :=
  if truthy (evt_extension_name evt)
     && differs_from_extension_name (evt_extension_name evt)
  then
    match prev_handler with
    | Some h => ([CallPrev evt], h evt)
    | None => ret tt
    end
  else
    let action_name := event_action_name evt in
    let payload := event_payload evt in
    fn <- actions_get _ACTIONS (py_or action_name (VStr "")) ;;
    _ <- match fn with
         | Some f =>
             try_except (call f payload)
               (fun exc => print (ExtHandlerFailed action_name exc))
         | None => ret tt
         end ;;
    match prev_handler with
    | Some h => try_except ([CallPrev evt], h evt) (fun _ => ret tt)
    | None => ret tt
    end.

(** The page object, as far as [register_extension] looks at it:
    [hasattr(page, "import_extension")] and the method's behaviour;
    [hasattr(page, "on_extension_event")] and the handler stored there,
    [None] inside when that is not callable. *)
Record Page : Type := mkPage {
  import_extension : option (string -> outcome unit);
  on_extension_event : option (option (ExtEvent -> effect unit))
}.

(** [register_extension(page, actions)]: the registry afterwards, what
    was printed, and the handler now stored on the page, if any. *)
Definition register_extension (page : Page) (actions : list (string * pyobj))
    (_ACTIONS : gmap string ActionCallback) :
    gmap string ActionCallback * M (option (gmap string ActionCallback -> ExtEvent -> M unit)) :=
  let registry :=
    fold_left (fun reg '(name, fn) => register_action name fn reg) actions _ACTIONS in
  (registry,
   _ <- match import_extension page with
        | Some import =>
            try_except
              (_ <- print Importing ;; ([], lift (import EXTENSION_NAME)))
              (fun exc => print (ImportFailed exc))
        | None => ret tt
        end ;;
   match on_extension_event page with
   | Some prev_handler => ret (Some (_handle_ext prev_handler))
   | None => ret None
   end).

End Handler.

(** ** The tray session *)

Module TrayApp.
Section Native.

(** The image library and the native tray library, used through their
    call surface only: [Image.open] may raise, [Image.new] does not;
    [pystray.Icon(...)] may raise; [icon.stop()] returns or raises and
    leaves the native icon in some state of its own. *)
Variables Image Icon : Type.
Variable Image_open : string -> outcome Image.
Variable Image_new : Z * Z -> Z * Z * Z -> Image.
Variable pystray_Icon : string -> Image -> string -> list MenuItem -> outcome Icon.
Variable Icon_stop : Icon -> Icon * outcome unit.

(** [on_open] and [on_exit] are called with the tray object itself, which
    Python passes by reference: [ref] is the identity of that object.  They
    are user code and raise what user code can raise. *)
Definition ref : Type := nat.
Definition TrayCallback : Type := ref -> effect unit.

(** The attributes [__init__] sets. *)
Record t : Type := mk {
  _icon_path : option string;
  _on_open : TrayCallback;
  _on_exit : TrayCallback;
  _fallback_color : Z * Z * Z;
  _menu_nodes : list MenuNode;
  icon : Icon
}.

Definition _load_icon (icon_path : option string) (fallback_color : Z * Z * Z) :
    Image :=
  let placeholder := Image_new (64, 64)%Z fallback_color in
  match icon_path with
  | Some path =>
      if String.eqb path "" then placeholder
      else match Image_open path with
           | Ok image => image
           | Raise _ => placeholder
           end
  | None => placeholder
  end.

(** The menu installed when the caller supplied none. *)
Definition default_menu_nodes : list MenuNode :=
  [ mkMenuNode (VStr "Open") (VStr "open") false false [] VNone;
    mkMenuNode (VStr "Exit") (VStr "exit") false false [] VNone ].

(** [TrayApp(name, title, icon_path, on_open, on_exit, menu,
    fallback_color)] for the object [self]: the registry it leaves
    behind, and the run that ends in the object or in an exception. *)
Definition __init__ (self : ref) (name title : string)
    (icon_path : option string) (on_open on_exit : TrayCallback)
    (menu : pyval) (fallback_color : Z * Z * Z)
    (_ACTIONS : gmap string ActionCallback) :
    gmap string ActionCallback * M t :=
  match _normalise_menu (py_or menu (VList [])) with
  | Raise e => (_ACTIONS, raise (Exc e))
  | Ok nodes =>
      let menu_nodes :=
        match nodes with
        | [] => default_menu_nodes
        | _ :: _ => nodes
        end in
      let registry :=
        register_action "exit" (Callable (fun _ => on_exit self))
          (register_action "open" (Callable (fun _ => on_open self)) _ACTIONS) in
      (registry,
       _ <- print (MenuNodes (map text menu_nodes)) ;;
       _ <- print (BuildingMenu (dom registry)) ;;
       try_except
         (let image := _load_icon icon_path fallback_color in
          built <- _build_pystray_menu registry menu_nodes ;;
          native <- ([], lift (pystray_Icon name image title built)) ;;
          ret {| _icon_path := icon_path; _on_open := on_open;
                 _on_exit := on_exit; _fallback_color := fallback_color;
                 _menu_nodes := menu_nodes; icon := native |})
         (fun exc => _ <- print (IconFailed exc) ;; raise (Exc exc)))
  end.

(** [TrayApp.stop(self)]: the object afterwards and how the call ended. *)
Definition stop (self : t) : t * M unit :=
  let '(native, result) := Icon_stop (icon self) in
  ({| _icon_path := _icon_path self; _on_open := _on_open self;
      _on_exit := _on_exit self; _fallback_color := _fallback_color self;
      _menu_nodes := _menu_nodes self; icon := native |},
   try_except ([], lift result) (fun _ => ret tt)).

End Native.
End TrayApp.

(** ** Vocabulary of the properties *)

(** [child_data or []] as line 66 to 68 and 75 of the source compute it. *)
Definition child_data (d : list (string * pyval)) : pyval :=
  if truthy (dict_get d "items") then dict_get d "items"
  else dict_get d "children".

(** The node one record normalises to, given its normalised children. *)
Definition node_of (d : list (string * pyval)) (kids : list MenuNode) : MenuNode :=
  mkMenuNode (label_of d) (dict_get d "action")
    (truthy (dict_get_or_False d "disabled"))
    (truthy (dict_get_or_False d "checked")) kids (dict_get d "icon").

(** [k in d] *)
Definition has_key (d : list (string * pyval)) (k : string) : bool :=
  existsb (fun kv => String.eqb k kv.1) d.

(** The label rule in the words of the specification: the value of the
    first alias that is present among [text], [label], [title], and the
    placeholder when none is present. *)
Definition first_present_label (d : list (string * pyval)) : pyval :=
  if has_key d "text" then dict_get d "text"
  else if has_key d "label" then dict_get d "label"
  else if has_key d "title" then dict_get d "title"
  else VStr "Menu item".

(** The label rule the normaliser follows on one record: the value of the
    first alias among [text], [label], [title] that is truthy, the
    placeholder when none is; the children are the normalised child data,
    so the rule holds at every depth. *)
Definition resolves_label (item : pyval) (node : MenuNode) : Prop :=
  exists d,
    item = VDict d
    /\ (truthy (dict_get d "text") = true -> text node = dict_get d "text")
    /\ (truthy (dict_get d "text") = false ->
        truthy (dict_get d "label") = true -> text node = dict_get d "label")
    /\ (truthy (dict_get d "text") = false ->
        truthy (dict_get d "label") = false ->
        truthy (dict_get d "title") = true -> text node = dict_get d "title")
    /\ (truthy (dict_get d "text") = false ->
        truthy (dict_get d "label") = false ->
        truthy (dict_get d "title") = false -> text node = VStr "Menu item")
    /\ _normalise_menu (child_data d) = Ok (children node).

(** The keys [menu_to_dict] writes. *)
Definition emitted_keys : list string :=
  ["text"; "action"; "disabled"; "checked"; "items"].

(** A menu description whose records, at every depth, use no key outside
    [emitted_keys]. *)
Fixpoint plain_menu (items : pyval) : bool :=
  match items with
  | VList l =>
      forallb
        (fun item =>
           match item with
           | VDict d =>
               forallb (fun kv => existsb (String.eqb kv.1) emitted_keys) d
               && dict_get_with plain_menu true d "items"
           | _ => true
           end) l
  | _ => true
  end.

(** One record of a plain description. *)
Definition plain_record (item : pyval) : bool :=
  match item with
  | VDict d =>
      forallb (fun kv => existsb (String.eqb kv.1) emitted_keys) d
      && plain_menu (dict_get d "items")
  | _ => true
  end.

(** Nodes as the normaliser makes them from a plain description: a truthy
    label and no icon, at every depth. *)
Fixpoint canonical (node : MenuNode) : bool :=
  truthy (text node)
  && match icon node with VNone => true | _ => false end
  && forallb canonical (children node).

(** Re-normalising what [menu_to_dict] emits, one node at a time. *)
Definition renormalises (node : MenuNode) : Prop :=
  canonical node = true ->
  forall rest,
    _normalise_menu (VList (node_to_dict node :: rest)) =
    match _normalise_menu (VList rest) with
    | Raise e => Raise e
    | Ok nodes => Ok (node :: nodes)
    end.



(** The actions of the nodes that have no children. *)
Fixpoint leaf_action (node : MenuNode) : list pyval :=
  match children node with
  | [] => [action node]
  | _ :: _ => flat_map leaf_action (children node)
  end.

Definition leaf_actions (nodes : list MenuNode) : list pyval :=
  flat_map leaf_action nodes.

(** The callback invocations of a trace, in order. *)
Fixpoint calls (tr : list event) : list (ActionCallback * pyval) :=
  match tr with
  | [] => []
  | Call fn payload :: rest => (fn, payload) :: calls rest
  | _ :: rest => calls rest
  end.

(** The registry lookups of a trace, in order. *)
Fixpoint lookups (tr : list event) : list pyval :=
  match tr with
  | [] => []
  | Get key :: rest => key :: lookups rest
  | _ :: rest => lookups rest
  end.

(** The printed lines of a trace, in order. *)
Fixpoint printed (tr : list event) : list log_line :=
  match tr with
  | [] => []
  | Print line :: rest => line :: printed rest
  | _ :: rest => printed rest
  end.

(** The registry key the builder looks a node's action up under:
    [node.action or ""]. *)
Definition lookup_key (a : pyval) : pyval := py_or a (VStr "").



(** A payload that is a dict whose ["action"] entry is the name. *)
Definition carries_action (payload : pyval) (name : string) : Prop :=
  exists d, payload = VDict d /\ has_key d "action" = true
            /\ dict_get d "action" = VStr name.

(** An event the handler treats as another extension's. *)
Definition foreign (evt : ExtEvent) : bool :=
  truthy (evt_extension_name evt)
  && differs_from_extension_name (evt_extension_name evt).


(** The part of the handler's trace that is the call to the previous
    handler. *)
Definition prev_call (prev_handler : option (ExtEvent -> effect unit))
    (evt : ExtEvent) : list event :=
  match prev_handler with
  | Some _ => [CallPrev evt]
  | None => []
  end.

(** What is left of an outcome behind [except Exception] with a handler
    that returns: a failure deriving from [Exception] is absorbed, any
    other exception stays. *)
Definition behind_except (r : effect unit) : effect unit :=
  match r with
  | Raise (Exc _) => Ok tt
  | r => r
  end.

(** How the handler ends once it has got to the previous handler on an
    event of its own: as the call of the previous handler ends behind
    [except Exception]; it returns when there is no callable one. *)
Definition prev_outcome (prev_handler : option (ExtEvent -> effect unit))
    (evt : ExtEvent) : effect unit :=
  match prev_handler with
  | Some h => behind_except (h evt)
  | None => Ok tt
  end.

(** What the handler does on an event of its own once the registry has
    answered [fn] for the key [key]: at most one callback invocation, a
    line printed when the callback raises an exception deriving from
    [Exception], then the previous handler; any other exception of the
    callback ends the handler there. *)
Definition own_event_run (prev_handler : option (ExtEvent -> effect unit))
    (evt : ExtEvent) (key action_name payload : pyval)
    (fn : option ActionCallback) : M unit :=
  match fn with
  | Some f =>
      match f payload with
      | Ok _ =>
          (Get key :: Call f payload :: prev_call prev_handler evt,
           prev_outcome prev_handler evt)
      | Raise (Exc e) =>
          (Get key :: Call f payload
           :: Print (ExtHandlerFailed action_name e) :: prev_call prev_handler evt,
           prev_outcome prev_handler evt)
      | Raise r => ([Get key; Call f payload], Raise r)
      end
  | None => (Get key :: prev_call prev_handler evt, prev_outcome prev_handler evt)
  end.

(** Sample data the properties are run on. *)
Definition says_ok : ActionCallback := fun _ => Ok tt.

Definition fails_with (msg : string) : ActionCallback :=
  fun _ => Raise (Exc (UserError msg)).

(** A callback that ends the process, as an exit action does with
    [sys.exit(0)]. *)
Definition exits : ActionCallback := fun _ => Raise (SystemExit (VInt 0)).

Definition tools_menu : list MenuNode :=
  [mkMenuNode (VStr "Tools") (VStr "tools") false false
     [mkMenuNode (VStr "Quit") (VStr "exit") false true [] VNone] VNone;
   mkMenuNode (VStr "Open") VNone true false [] VNone].

(** A key the registry can be looked up under. *)
Definition hashable (key : pyval) : bool :=
  match key with
  | VList _ | VDict _ => false
  | _ => true
  end.

(** Two leaves, the first checked and the second not. *)
Definition checked_then_unchecked : list MenuNode :=
  [mkMenuNode (VStr "A") VNone false true [] VNone;
   mkMenuNode (VStr "B") VNone false false [] VNone].

(** Native libraries to run the tray session with: no icon file can be
    opened, the placeholder image is a token, and the native icon is the
    menu it was made with, which [stop] empties, raising when it already is
    empty. *)
Definition no_image : string -> outcome unit :=
  fun _ => Raise (UserError "cannot identify image file").

Definition blank_image : Z * Z -> Z * Z * Z -> unit := fun _ _ => tt.

Definition icon_of_menu : string -> unit -> string -> list MenuItem ->
    outcome (list MenuItem) :=
  fun _ _ _ menu => Ok menu.

Definition stop_once (native : list MenuItem) : list MenuItem * outcome unit :=
  match native with
  | [] => ([], Raise (UserError "icon is not running"))
  | _ :: _ => ([], Ok tt)
  end.

(** Two decoders to run the handler with: one that rejects every string,
    and one that decodes the one-entry JSON object naming the action
    [hello] and rejects the rest. *)
Definition json_rejects : string -> option pyval := fun _ => None.

Definition hello_message : string :=
  let q := String (Ascii.ascii_of_nat 34) EmptyString in
  "{" ++ q ++ "action" ++ q ++ ": " ++ q ++ "hello" ++ q ++ "}".

Definition json_one_message (s : string) : option pyval :=
  if String.eqb s hello_message
  then Some (VDict [("action", VStr "hello")]) else None.

(** ** Further vocabulary *)

(** The descriptions [_normalise_menu] accepts: a falsy value, or a list
    of dicts whose child data, in turn, is such a description. *)
Fixpoint well_formed_menu (items : pyval) : bool :=
  match items with
  | VList l =>
      forallb
        (fun item =>
           match item with
           | VDict d =>
               if truthy (dict_get d "items")
               then dict_get_with well_formed_menu true d "items"
               else dict_get_with well_formed_menu true d "children"
           | _ => false
           end) l
  | v => negb (truthy v)
  end.

(** A node and its descendants with the [icon] attribute reset to [None]. *)
Fixpoint without_icon (node : MenuNode) : MenuNode :=
  mkMenuNode (text node) (action node) (disabled node) (checked node)
    (map without_icon (children node)) VNone.

(** Every label of the tree is truthy. *)
Fixpoint labelled (node : MenuNode) : bool :=
  truthy (text node) && forallb labelled (children node).

(** The registry after a run of [register_action] calls from an empty
    registry, first call first. *)
Definition registry_after (registrations : list (string * pyobj)) :
    gmap string ActionCallback :=
  fold_left (fun reg '(name, fn) => register_action name fn reg) registrations ∅.

(** What [pystray.MenuItem] was given as label, [enabled] and [default]. *)
Definition item_label (item : MenuItem) : pyval :=
  match item with
  | Item label _ _ _ _ _ => label
  | SubmenuItem label _ _ _ => label
  end.

Definition item_enabled (item : MenuItem) : bool :=
  match item with
  | Item _ _ _ enabled _ _ => enabled
  | SubmenuItem _ _ enabled _ => enabled
  end.

Definition item_default (item : MenuItem) : bool :=
  match item with
  | Item _ _ _ _ _ default => default
  | SubmenuItem _ _ _ default => default
  end.

(** The calls of the previous handler in a trace. *)
Fixpoint prev_calls (tr : list event) : list ExtEvent :=
  match tr with
  | [] => []
  | CallPrev evt :: rest => evt :: prev_calls rest
  | _ :: rest => prev_calls rest
  end.

(** The entries of [actions] that [register_action] accepts. *)
Definition valid_entry (entry : string * pyobj) : bool :=
  match entry with
  | (name, Callable _) => negb (String.eqb name "")
  | (_, NotCallable _) => false
  end.

(** One record of a well-formed description. *)
Definition well_formed_record (item : pyval) : bool :=
  match item with
  | VDict d => well_formed_menu (child_data d)
  | _ => false
  end.

(** Whether a run of the normaliser returned. *)
Definition returned {E A : Type} (r : result E A) : bool :=
  match r with
  | Ok _ => true
  | Raise _ => false
  end.

(** A node as it comes back from emitting and normalising: the placeholder
    for a falsy label, no icon, and the children treated alike. *)
Fixpoint renormalised (node : MenuNode) : MenuNode :=
  mkMenuNode (py_or (text node) (VStr "Menu item")) (action node)
    (disabled node) (checked node) (map renormalised (children node)) VNone.

(** What [_ACTIONS.get(key)] finds when it does not raise. *)
Definition registry_find (reg : gmap string ActionCallback) (key : pyval) :
    option ActionCallback :=
  match key with
  | VStr s => reg !! s
  | _ => None
  end.

(** A built item that mirrors a node under a registry: the node's label,
    enabled unless the node is disabled, never the default item; for a node
    without children the closure bound to the node's action and to what the
    registry held under it; for a node with children a submenu whose items
    mirror the children, one by one and in order. *)
Fixpoint mirrors (reg : gmap string ActionCallback) (node : MenuNode)
    (item : MenuItem) {struct item} : Prop :=
  item_label item = text node
  /\ item_enabled item = negb (disabled node)
  /\ item_default item = false
  /\ match item with
     | Item _ fn name _ _ _ =>
         children node = [] /\ name = action node
         /\ fn = registry_find reg (lookup_key (action node))
     | SubmenuItem _ submenu _ _ =>
         children node <> []
         /\ (fix all (nodes : list MenuNode) (items : list MenuItem)
                 {struct items} : Prop :=
               match nodes, items with
               | [], [] => True
               | n :: nodes', i :: items' => mirrors reg n i /\ all nodes' items'
               | _, _ => False
               end) (children node) submenu
     end.

(** [mirrors], item by item, over two lists of the same length. *)
Definition all_mirror (reg : gmap string ActionCallback) :
    list MenuNode -> list MenuItem -> Prop :=
  fix all (nodes : list MenuNode) (items : list MenuItem) {struct items} : Prop :=
    match nodes, items with
    | [], [] => True
    | n :: nodes', i :: items' => mirrors reg n i /\ all nodes' items'
    | _, _ => False
    end.

(** A leaf action whose registry key can be looked up. *)
Definition lookup_key_hashable_b (a : pyval) : bool := hashable (lookup_key a).

(** A native library on which no tray icon can be created. *)
Definition no_tray : string -> unit -> string -> list MenuItem ->
    outcome (list MenuItem) :=
  fun _ _ _ _ => Raise (UserError "no system tray").

(** ** Starting the tray session *)

Module TrayAppLifecycle.

(** The native icon as [TrayApp.start] meets it on the calling thread:
    how [icon.run()] ends, whether the icon has a [run_detached] and how
    that ends, and how the assignment [icon.visible = value] ends. *)
Record native : Type := mkNative {
  run : outcome unit;
  run_detached : option (outcome unit);
  set_visible : bool -> outcome unit
}.

(** The lines [start] and its thread body print. *)
Inductive line : Type :=
  | OnMainThread
      (* TrayApp: starting on main thread (blocking run()) *)
  | WithRunDetached
      (* TrayApp: starting with run_detached (macOS) *)
  | RunDetachedFailed (exc : exn)
      (* TrayApp: run_detached failed ({exc}), using thread *)
  | InBackgroundThread
      (* TrayApp: starting tray with run() in background thread *)
  | RunFailed (exc : exn).
      (* TrayApp: icon.run() failed ({exc}) *)

(** What the calling thread does, in order. *)
Inductive step : Type :=
  | Said (l : line)
  | Run                        (* self.icon.run() *)
  | RunDetached                (* self.icon.run_detached() *)
  | ThreadStart                (* threading.Thread(target=_run, daemon=True).start() *)
  | SetVisible (value : bool). (* self.icon.visible = value *)

(** The body [_run] of the background thread. *)
Definition _run (icon : native) : list step * outcome unit :=
  match run icon with
  | Ok _ => ([Run], Ok tt)
  | Raise exc => ([Run; Said (RunFailed exc)], Ok tt)
  end.

(** The last strategy of [start]: the thread, then the visibility, whose
    failure is passed over. *)
Definition in_thread (before : list step) : list step * outcome unit :=
  ((before ++ [Said InBackgroundThread; ThreadStart; SetVisible true])%list, Ok tt).

(** [TrayApp.start(self, mac, block)] on the calling thread. *)
Definition start (icon : native) (mac block : bool) : list step * outcome unit :=
  if mac && block then ([Said OnMainThread; Run], run icon)
  else if mac then
    match run_detached icon with
    | Some (Ok _) => ([Said WithRunDetached; RunDetached], Ok tt)
    | Some (Raise exc) =>
        in_thread [Said WithRunDetached; RunDetached; Said (RunDetachedFailed exc)]
    | None => in_thread []
    end
  else in_thread [].

(** Whether the calling thread ran the native loop itself, started the
    background thread, called [run_detached], set the visibility. *)
Definition ran (tr : list step) : bool :=
  existsb (fun s => match s with Run => true | _ => false end) tr.

Definition thread_started (tr : list step) : bool :=
  existsb (fun s => match s with ThreadStart => true | _ => false end) tr.

Definition detached_tried (tr : list step) : bool :=
  existsb (fun s => match s with RunDetached => true | _ => false end) tr.

Definition visibility_set (tr : list step) : bool :=
  existsb (fun s => match s with SetVisible _ => true | _ => false end) tr.

Definition detached_ok (icon : native) : bool :=
  match run_detached icon with
  | Some (Ok _) => true
  | _ => false
  end.

End TrayAppLifecycle.

(** ** The client of the front-end extension *)

Module TrayExtensionClient.

(** The page as [_invoke] looks at it: the two methods it may have. *)
Record page : Type := mkPage {
  invoke_extension_method : option (string -> string -> pyval -> outcome unit);
  invoke_extension : option (string -> string -> pyval -> outcome unit)
}.

Inductive line : Type :=
  | InvokeFailed (method : string) (exc : exn)
      (* Tray extension: invoke {method} failed ({exc}) *)
  | LegacyInvokeFailed (method : string) (exc : exn)
      (* Tray extension: invoke (legacy) {method} failed ({exc}) *)
  | NoInvoke.
      (* Tray extension: no invoke_extension_method / invoke_extension on page *)

Inductive step : Type :=
  | InvokeMethod (extension method : string) (args : pyval)
  | InvokeLegacy (extension method : string) (args : pyval)
  | Said (l : line).

(** [self._invoke(method, args)] *)
Definition _invoke (p : page) (method : string) (args : pyval) :
    list step * outcome unit :=
  let sent := py_or args (VDict []) in
  match invoke_extension_method p with
  | Some invoke =>
      match invoke EXTENSION_NAME method sent with
      | Ok _ => ([InvokeMethod EXTENSION_NAME method sent], Ok tt)
      | Raise exc =>
          ([InvokeMethod EXTENSION_NAME method sent; Said (InvokeFailed method exc)],
           Ok tt)
      end
  | None =>
      match invoke_extension p with
      | Some invoke =>
          match invoke EXTENSION_NAME method sent with
          | Ok _ => ([InvokeLegacy EXTENSION_NAME method sent], Ok tt)
          | Raise exc =>
              ([InvokeLegacy EXTENSION_NAME method sent;
                Said (LegacyInvokeFailed method exc)], Ok tt)
          end
      | None => ([Said NoInvoke], Ok tt)
      end
  end.

Definition set_icon (p : page) (path : pyval) : list step * outcome unit :=
  _invoke p "setIcon" (VDict [("path", py_or path (VStr ""))]).

Definition set_tooltip (p : page) (text : pyval) : list step * outcome unit :=
  _invoke p "setTooltip" (VDict [("text", py_or text (VStr ""))]).

(** The argument of [set_menu]: a sequence of nodes or a sequence of
    values that are meant to be dicts. *)
Inductive menu_arg : Type :=
  | Nodes (nodes : list MenuNode)
  | Dicts (menu : list pyval).

(** [set_menu(menu_nodes)]: a non-empty sequence whose first element is a
    dict is sent as it is; anything else goes through [menu_to_dict],
    which reads [node.text] and so raises on a value that is no node. *)
Definition set_menu (p : page) (menu_nodes : menu_arg) : list step * outcome unit :=
  match menu_nodes with
  | Dicts (VDict d :: rest) =>
      _invoke p "setMenu" (VDict [("items", VList (VDict d :: rest))])
  | Dicts [] => _invoke p "setMenu" (VDict [("items", VList [])])
  | Dicts (_ :: _) =>
      ([], Raise (AttributeError "object has no attribute 'text'"))
  | Nodes nodes =>
      _invoke p "setMenu" (VDict [("items", VList (menu_to_dict nodes))])
  end.

Definition show_menu (p : page) : list step * outcome unit :=
  _invoke p "showMenu" VNone.

Definition destroy (p : page) : list step * outcome unit :=
  _invoke p "destroy" VNone.

(** The calls a trace makes on the page, new method and legacy method. *)
Definition method_calls (tr : list step) : list step :=
  List.filter (fun s => match s with InvokeMethod _ _ _ => true | _ => false end) tr.

Definition legacy_calls (tr : list step) : list step :=
  List.filter (fun s => match s with InvokeLegacy _ _ _ => true | _ => false end) tr.

End TrayExtensionClient.

(** ** The menu items of the asynchronous client
    ([src/python/flet_tray/__init__.py]) *)

(** [target[key] = value] on the entries of a dict: the value of an
    existing key is replaced where it stands, a new key goes last. *)
Fixpoint dict_set (target : list (string * pyval)) (key : string) (value : pyval) :
    list (string * pyval) :=
  match target with
  | [] => [(key, value)]
  | (k, v) :: rest =>
      if String.eqb key k then (k, value) :: rest
      else (k, v) :: dict_set rest key value
  end.

(** [_merge_if(value, key, target)], [None] standing for Python's [None]. *)
Definition _merge_if (value : option pyval) (key : string)
    (target : list (string * pyval)) : list (string * pyval) :=
  match value with
  | Some v => dict_set target key v
  | None => target
  end.

(** What [children] of a menu item can hold besides [None]: an
    [Iterable].  A list or tuple is true when it has an element and can be
    traversed again and again; an iterator ([iter(...)], a generator) is
    always true, also when it will yield nothing, and a traversal leaves it
    exhausted. *)
Inductive iterable (A : Type) : Type :=
  | Sequence (items : list A)
  | Iterator (remaining : list A).
Arguments Sequence {A} items.
Arguments Iterator {A} remaining.

(** [bool(it)] *)
Definition iterable_truthy {A : Type} (it : iterable A) : bool :=
  match it with
  | Sequence [] => false
  | Sequence (_ :: _) => true
  | Iterator _ => true
  end.

(** What [for x in it] goes through. *)
Definition elements {A : Type} (it : iterable A) : list A :=
  match it with
  | Sequence items => items
  | Iterator remaining => remaining
  end.

Module TrayMenuItem.

(** The dataclass [TrayMenuItem]; [children] is [None] or an iterable. *)
Inductive t : Type :=
  mk {
    id : string;
    label : option string;
    type : string;
    checked : option bool;
    enabled : option bool;
    children : option (iterable t)
  }.

(** [TrayMenuItem.to_json(self)]: the dict it returns.  [if self.children]
    is the truth value of the attribute, [None] being false. *)
Fixpoint to_json (self : t) : pyval :=
  let data := [("id", VStr (id self)); ("type", VStr (type self))] in
  let data := _merge_if (VStr <$> label self) "label" data in
  let data := _merge_if (VBool <$> checked self) "checked" data in
  let data := _merge_if (VBool <$> enabled self) "enabled" data in
  match children self with
  | Some it =>
      if iterable_truthy it then
        VDict (dict_set data "items"
                 (VList ((fix each (items : list t) : list pyval :=
                            match items with
                            | [] => []
                            | child :: rest => to_json child :: each rest
                            end) (elements it))))
      else VDict data
  | None => VDict data
  end.

(** The item as a call of [to_json] leaves it: the iterators the call went
    through are exhausted, in the item and in the children a list keeps. *)
Fixpoint after_to_json (self : t) : t :=
  mk (id self) (label self) (type self) (checked self) (enabled self)
    match children self with
    | Some (Sequence kids) => Some (Sequence (map after_to_json kids))
    | Some (Iterator _) => Some (Iterator [])
    | None => None
    end.

(** An item with its [children] in the one form the JSON form keeps, at
    every depth: absent for [None] and for an empty list, a list for every
    iterable that yields a child, the exhausted iterator for an iterator
    that yields none. *)
Fixpoint tidy (self : t) : t :=
  mk (id self) (label self) (type self) (checked self) (enabled self)
    match children self with
    | Some (Sequence ((_ :: _) as kids)) => Some (Sequence (map tidy kids))
    | Some (Iterator ((_ :: _) as kids)) => Some (Sequence (map tidy kids))
    | Some (Iterator []) => Some (Iterator [])
    | _ => None
    end.

(** The payload [TrayClient.set_menu] hands to [call_action], [items] being
    what its argument yields. *)
Definition set_menu_payload (items : list t) : pyval :=
  VDict [("items", VList (map to_json items))].

End TrayMenuItem.

(** The method and arguments of every call a trace of the extension client
    makes on the page, through either method. *)
Definition sent (tr : list TrayExtensionClient.step) : list (string * pyval) :=
  flat_map
    (fun s =>
       match s with
       | TrayExtensionClient.InvokeMethod _ method args => [(method, args)]
       | TrayExtensionClient.InvokeLegacy _ method args => [(method, args)]
       | TrayExtensionClient.Said _ => []
       end) tr.

(** Whether the page has one of the two methods. *)
Definition can_invoke (p : TrayExtensionClient.page) : bool :=
  match TrayExtensionClient.invoke_extension_method p,
        TrayExtensionClient.invoke_extension p with
  | None, None => false
  | _, _ => true
  end.

(** A page whose new method raises and whose legacy method works. *)
Definition page_with_failing_method : TrayExtensionClient.page :=
  TrayExtensionClient.mkPage
    (Some (fun _ _ _ => Raise (UserError "not connected")))
    (Some (fun _ _ _ => Ok tt)).

(** * Properties *)

(** ** The normaliser and the emitter *)

Lemma dict_get_with_get {A : Type} (f : pyval -> A) d k :
  dict_get_with f (f VNone) d k = f (dict_get d k).
Proof.
  unfold dict_get, dict_get_with.
  induction d as [|[k' v] d IH]; [reflexivity|].
  destruct (String.eqb k k'); [reflexivity | exact IH].
Qed.

(** The loop of [_normalise_menu], one record at a time: the children are
    the normalised [child_data]. *)
Lemma normalise_cons d rest :
  _normalise_menu (VList (VDict d :: rest)) =
  match _normalise_menu (child_data d) with
  | Raise e => Raise e
  | Ok kids =>
      match _normalise_menu (VList rest) with
      | Raise e => Raise e
      | Ok nodes => Ok (node_of d kids :: nodes)
      end
  end.
Proof.
  assert (Hkids :
    (if truthy (dict_get d "items")
     then dict_get_with _normalise_menu (Ok []) d "items"
     else dict_get_with _normalise_menu (Ok []) d "children")
    = _normalise_menu (child_data d)).
  { unfold child_data.
    destruct (truthy (dict_get d "items"));
      apply (dict_get_with_get _normalise_menu). }
  cbn [_normalise_menu]. rewrite Hkids. reflexivity.
Qed.

Lemma normalise_nil : _normalise_menu (VList []) = Ok [].
Proof. reflexivity. Qed.

Lemma normalise_not_dict item rest :
  (forall d, item <> VDict d) ->
  exists e, _normalise_menu (VList (item :: rest)) = Raise e.
Proof.
  intros H. destruct item; cbn [_normalise_menu]; eauto.
  exfalso. eapply H. reflexivity.
Qed.

Lemma normalise_falsy v : truthy v = false -> _normalise_menu v = Ok [].
Proof.
  destruct v as [|b|z|s|l|d]; cbn; intros H; try reflexivity.
  - rewrite H. reflexivity.
  - destruct (Z.eqb z 0); [reflexivity | discriminate].
  - destruct (String.eqb s ""); [reflexivity | discriminate].
  - destruct l; [reflexivity | discriminate].
  - destruct d; [reflexivity | discriminate].
Qed.

(** The label of every normalised record, case by case. *)
Lemma label_of_cases d :
  (truthy (dict_get d "text") = true -> label_of d = dict_get d "text")
  /\ (truthy (dict_get d "text") = false ->
      truthy (dict_get d "label") = true -> label_of d = dict_get d "label")
  /\ (truthy (dict_get d "text") = false ->
      truthy (dict_get d "label") = false ->
      truthy (dict_get d "title") = true -> label_of d = dict_get d "title")
  /\ (truthy (dict_get d "text") = false ->
      truthy (dict_get d "label") = false ->
      truthy (dict_get d "title") = false -> label_of d = VStr "Menu item").
Proof.
  unfold label_of, py_or.
  repeat split; intros; repeat (match goal with H : _ = _ |- _ => rewrite H; clear H end);
    reflexivity.
Qed.

(** What [_normalise_menu] returns on a list, record by record. *)
Lemma normalise_list_inv items nodes :
  _normalise_menu (VList items) = Ok nodes ->
  Forall2 (fun item node =>
             exists d, item = VDict d
                       /\ _normalise_menu (child_data d) = Ok (children node)
                       /\ node = node_of d (children node)) items nodes.
Proof.
  revert nodes. induction items as [|item rest IH]; intros nodes H.
  - cbn in H. injection H as <-. constructor.
  - destruct item as [| | | | |d];
      try (cbn [_normalise_menu] in H; discriminate).
    rewrite normalise_cons in H.
    destruct (_normalise_menu (child_data d)) as [kids|] eqn:Hkids; [|discriminate].
    destruct (_normalise_menu (VList rest)) as [tail|] eqn:Htail; [|discriminate].
    injection H as <-. constructor; [|apply IH; reflexivity].
    exists d. cbn. auto.
Qed.

(** C2, as the code has it: for every list of records the normaliser
    accepts, each node's label is the value of the first alias among
    [text], [label], [title] whose value is truthy, and the placeholder
    [Menu item] when none of the three has a truthy value; the children of
    the node are the normalised child data of the record. *)
Theorem label_is_first_truthy_alias (items : list pyval) (nodes : list MenuNode) :
  _normalise_menu (VList items) = Ok nodes ->
  Forall2 resolves_label items nodes.
Proof.
  intros H. apply normalise_list_inv in H.
  induction H as [|item node items nodes (d & -> & Hkids & Hnode) _ IH];
    constructor; [|exact IH].
  exists d. pose proof (label_of_cases d) as (H1 & H2 & H3 & H4).
  assert (Htext : text node = label_of d) by (rewrite Hnode; reflexivity).
  rewrite Htext. auto 10.
Qed.

Lemma label_is_first_truthy_alias_witness :
  Forall2 resolves_label
    [VDict [("text", VStr ""); ("label", VStr "Settings");
            ("children", VList [VDict [("title", VStr "About")]; VDict []])]]
    [mkMenuNode (VStr "Settings") VNone false false
       [mkMenuNode (VStr "About") VNone false false [] VNone;
        mkMenuNode (VStr "Menu item") VNone false false [] VNone] VNone].
Proof.
  apply label_is_first_truthy_alias. vm_compute. reflexivity.
Defined.

(** C2 as stated fails: a record whose [text] is present and empty gets the
    value of [label], not the value of the first alias present. *)
Lemma label_skips_present_empty_text :
  _normalise_menu
    (VList [VDict [("text", VStr ""); ("label", VStr "Settings")]])
  = Ok [mkMenuNode (VStr "Settings") VNone false false [] VNone]
  /\ has_key [("text", VStr ""); ("label", VStr "Settings")] "text" = true
  /\ first_present_label [("text", VStr ""); ("label", VStr "Settings")] = VStr ""
  /\ VStr "Settings" <> first_present_label [("text", VStr ""); ("label", VStr "Settings")].
Proof.
  repeat split; try reflexivity. vm_compute. discriminate.
Qed.

(** Induction on menu trees: a property of a node follows from the
    property of its children. *)
Lemma MenuNode_tree_ind (P : MenuNode -> Prop) :
  (forall node, Forall P (children node) -> P node) -> forall node, P node.
Proof.
  intros step. fix IH 1. intros [t a dis chk kids ic].
  apply step. cbn. induction kids as [|kid kids IHkids]; constructor.
  - apply IH.
  - exact IHkids.
Qed.

Lemma node_to_dict_eq node :
  node_to_dict node =
  VDict ([("text", text node); ("action", action node);
          ("disabled", VBool (disabled node)); ("checked", VBool (checked node))]
         ++ match children node with
            | [] => []
            | _ :: _ => [("items", VList (menu_to_dict (children node)))]
            end)%list.
Proof. destruct node as [t a dis chk [|kid kids] ic]; reflexivity. Qed.

Lemma normalise_ok_inv v nodes :
  _normalise_menu v = Ok nodes ->
  (truthy v = false /\ nodes = []) \/ exists l, v = VList l.
Proof.
  destruct v as [|b|z|s|l|d]; cbn; intros H; eauto.
  - left. injection H as <-. auto.
  - left. destruct b; [discriminate|]. injection H as <-. auto.
  - left. destruct (Z.eqb z 0); [|discriminate]. injection H as <-. auto.
  - left. destruct (String.eqb s ""); [|discriminate]. injection H as <-. auto.
  - left. destruct d; [|discriminate]. injection H as <-. auto.
Qed.

Lemma label_of_truthy d : truthy (label_of d) = true.
Proof.
  unfold label_of, py_or.
  destruct (truthy (dict_get d "text")) eqn:H1; [exact H1|].
  destruct (truthy (dict_get d "label")) eqn:H2; [exact H2|].
  destruct (truthy (dict_get d "title")) eqn:H3; [exact H3|].
  reflexivity.
Qed.

(** A key outside [emitted_keys] is missing from a plain record. *)
Lemma plain_keys_miss d k :
  forallb (fun kv => existsb (String.eqb kv.1) emitted_keys) d = true ->
  existsb (String.eqb k) emitted_keys = false ->
  dict_get d k = VNone.
Proof.
  intros Hd Hk. unfold dict_get, dict_get_with.
  induction d as [|[k' v] d IH]; [reflexivity|].
  cbn [forallb] in Hd. apply andb_prop in Hd as [Hk' Hd].
  destruct (String.eqb k k') eqn:E; [|apply IH; exact Hd].
  apply String.eqb_eq in E. subst k'. cbn [fst] in Hk'.
  rewrite Hk in Hk'. discriminate.
Qed.

Lemma plain_menu_list l : plain_menu (VList l) = forallb plain_record l.
Proof.
  assert (Hrec : forall item,
            match item with
            | VDict d =>
                forallb (fun kv => existsb (String.eqb kv.1) emitted_keys) d
                && dict_get_with plain_menu true d "items"
            | _ => true
            end = plain_record item).
  { intros [| | | | |d]; try reflexivity.
    cbn [plain_record]. f_equal.
    change true with (plain_menu VNone). apply (dict_get_with_get plain_menu). }
  cbn [plain_menu]. induction l as [|item l IH]; [reflexivity|].
  cbn [forallb]. rewrite Hrec, IH. reflexivity.
Qed.

Lemma canonical_eq node :
  canonical node =
  truthy (text node)
  && match icon node with VNone => true | _ => false end
  && forallb canonical (children node).
Proof. destruct node; reflexivity. Qed.

(** A plain description normalises to canonical nodes. *)
Lemma plain_record_canonical node :
  forall item d,
    plain_record item = true -> item = VDict d ->
    _normalise_menu (child_data d) = Ok (children node) ->
    node = node_of d (children node) ->
    canonical node = true.
Proof.
  induction node as [node IH] using MenuNode_tree_ind.
  intros item d Hplain -> Hkids Hnode.
  cbn [plain_record] in Hplain. apply andb_prop in Hplain as [Hkeys Hitems].
  rewrite canonical_eq.
  assert (Htext : text node = label_of d) by (rewrite Hnode; reflexivity).
  assert (Hicon : icon node = dict_get d "icon") by (rewrite Hnode; reflexivity).
  rewrite Htext, label_of_truthy, Hicon.
  rewrite (plain_keys_miss d "icon" Hkeys) by reflexivity.
  cbn [andb].
  assert (Hchild : child_data d = py_or (dict_get d "items") VNone).
  { unfold child_data, py_or.
    rewrite (plain_keys_miss d "children" Hkeys) by reflexivity. reflexivity. }
  rewrite Hchild in Hkids. unfold py_or in Hkids.
  destruct (truthy (dict_get d "items")) eqn:Htruthy.
  - destruct (normalise_ok_inv _ _ Hkids) as [[Hf _]|[l Hl]];
      [rewrite Hf in Htruthy; discriminate|].
    rewrite Hl in Hkids, Hitems. rewrite plain_menu_list in Hitems.
    apply normalise_list_inv in Hkids.
    clear Hl Htruthy Hnode Htext Hicon Hchild.
    revert Hitems IH.
    induction Hkids as [|kid knode l kids (d' & Hd' & Hk & Hn) _ IHk];
      intros Hitems IH; [reflexivity|].
    cbn [forallb] in Hitems |- *. apply andb_prop in Hitems as [Hkid Hrest].
    pose proof (Forall_inv IH) as IHkid. pose proof (Forall_inv_tail IH) as IHrest.
    rewrite (IHkid kid d' Hkid Hd' Hk Hn). cbn [andb].
    apply IHk; assumption.
  - cbn in Hkids. injection Hkids as <-. reflexivity.
Qed.

Lemma plain_menu_canonical menu nodes :
  plain_menu menu = true -> _normalise_menu menu = Ok nodes ->
  forallb canonical nodes = true.
Proof.
  intros Hplain Hnorm.
  destruct (normalise_ok_inv _ _ Hnorm) as [[_ ->]|[l ->]]; [reflexivity|].
  rewrite plain_menu_list in Hplain. apply normalise_list_inv in Hnorm.
  revert Hplain.
  induction Hnorm as [|item node l nodes (d & Hd & Hk & Hn) _ IH];
    intros Hplain; [reflexivity|].
  cbn [forallb] in Hplain |- *. apply andb_prop in Hplain as [Hitem Hrest].
  rewrite (plain_record_canonical node item d Hitem Hd Hk Hn). cbn [andb].
  apply IH. exact Hrest.
Qed.

Lemma renormalises_list kids :
  Forall renormalises kids -> forallb canonical kids = true ->
  _normalise_menu (VList (menu_to_dict kids)) = Ok kids.
Proof.
  induction kids as [|kid kids IH]; intros HR Hc; [reflexivity|].
  cbn [forallb] in Hc. apply andb_prop in Hc as [Hkid Hkids].
  change (menu_to_dict (kid :: kids)) with (node_to_dict kid :: menu_to_dict kids).
  rewrite (Forall_inv HR Hkid), (IH (Forall_inv_tail HR) Hkids). reflexivity.
Qed.

Lemma renormalises_node node : renormalises node.
Proof.
  induction node as [node IH] using MenuNode_tree_ind.
  intros Hc rest. rewrite canonical_eq in Hc.
  apply andb_prop in Hc as [Hc Hkids]. apply andb_prop in Hc as [Htext Hicon].
  rewrite node_to_dict_eq, normalise_cons.
  destruct node as [t a dis chk kids ic]. cbn [text action disabled checked children icon] in *.
  destruct ic; try discriminate.
  destruct kids as [|kid kids].
  - cbn [app]. change (child_data _) with VNone.
    cbn [_normalise_menu]. unfold node_of, label_of, py_or.
    cbn -[truthy]. rewrite Htext.
    destruct dis, chk; reflexivity.
  - assert (Hcd : forall (x : pyval) xs,
              child_data ([("text", t); ("action", a); ("disabled", VBool dis);
                           ("checked", VBool chk)] ++ [("items", VList (x :: xs))])%list
              = VList (x :: xs)) by reflexivity.
    change (menu_to_dict (kid :: kids)) with (node_to_dict kid :: menu_to_dict kids) at 1.
    rewrite Hcd.
    change (node_to_dict kid :: menu_to_dict kids) with (menu_to_dict (kid :: kids)).
    rewrite (renormalises_list _ IH Hkids).
    unfold node_of, label_of, py_or.
    cbn -[truthy menu_to_dict]. rewrite Htext.
    destruct dis, chk; reflexivity.
Qed.

(** Emitting canonical nodes and normalising the result gives them back. *)
Lemma canonical_round_trip nodes :
  forallb canonical nodes = true ->
  _normalise_menu (VList (menu_to_dict nodes)) = Ok nodes.
Proof.
  intros Hc. apply renormalises_list; [|exact Hc].
  apply Forall_forall. intros node _. apply renormalises_node.
Qed.

(** C4: for a menu description whose records use only the keys [text],
    [action], [disabled], [checked] and [items], the tree the normaliser
    returns is a fixed point of emitting with [menu_to_dict] and
    normalising again. *)
Theorem normalise_emit_fixed_point (menu : pyval) (nodes : list MenuNode) :
  plain_menu menu = true ->
  _normalise_menu menu = Ok nodes ->
  _normalise_menu (VList (menu_to_dict nodes)) = Ok nodes.
Proof.
  intros Hplain Hnorm. apply canonical_round_trip.
  exact (plain_menu_canonical menu nodes Hplain Hnorm).
Qed.

(** C4 at a two-level menu. *)
Lemma normalise_emit_fixed_point_witness :
  _normalise_menu
    (VList (menu_to_dict
       [mkMenuNode (VStr "File") VNone false false
          [mkMenuNode (VStr "Quit") (VStr "exit") false true [] VNone] VNone;
        mkMenuNode (VStr "Menu item") (VStr "open") true false [] VNone]))
  = Ok [mkMenuNode (VStr "File") VNone false false
          [mkMenuNode (VStr "Quit") (VStr "exit") false true [] VNone] VNone;
        mkMenuNode (VStr "Menu item") (VStr "open") true false [] VNone].
Proof.
  apply (normalise_emit_fixed_point
           (VList
              [VDict [("text", VStr "File");
                      ("items", VList [VDict [("text", VStr "Quit");
                                              ("action", VStr "exit");
                                              ("checked", VInt 1)]])];
               VDict [("action", VStr "open"); ("disabled", VBool true)]]));
    vm_compute; reflexivity.
Defined.

(** ** The monad *)

Lemma bind_ok_inv {A B : Type} (m : M A) (k : A -> M B) tr b :
  bind m k = (tr, Ok b) ->
  exists tr1 a tr2, m = (tr1, Ok a) /\ k a = (tr2, Ok b) /\ tr = (tr1 ++ tr2)%list.
Proof.
  destruct m as [tr1 [a|e]]; cbn; [|discriminate].
  destruct (k a) as [tr2 r] eqn:Hk. intros H. injection H as <- ->.
  exists tr1, a, tr2. auto.
Qed.

Lemma bind_ok {A B : Type} tr (a : A) (k : A -> M B) :
  bind (tr, Ok a) k = ((tr ++ (k a).1)%list, (k a).2).
Proof. cbn. destruct (k a). reflexivity. Qed.


Lemma calls_app tr1 tr2 : calls (tr1 ++ tr2) = (calls tr1 ++ calls tr2)%list.
Proof.
  induction tr1 as [|[| | |] tr1 IH]; cbn; rewrite ?IH; reflexivity.
Qed.

Lemma printed_app tr1 tr2 : printed (tr1 ++ tr2) = (printed tr1 ++ printed tr2)%list.
Proof.
  induction tr1 as [|[| | |] tr1 IH]; cbn; rewrite ?IH; reflexivity.
Qed.

(** ** The builder *)

Lemma build_item_eq reg loop_end node :
  build_item reg loop_end node =
  match children node with
  | _ :: _ =>
      menu_items <-
        for_each (build_item reg (last (children node))) (children node) ;;
      submenu <- finish_menu (map text (children node)) menu_items ;;
      ret (SubmenuItem (text node) submenu (negb (disabled node)) false)
  | [] =>
      callback <- actions_get reg (lookup_key (action node)) ;;
      ret (Item (text node) callback (action node) (negb (disabled node))
             (if checked node then CheckedOf <$> loop_end else None) false)
  end.
Proof. destruct node as [t a dis chk [|kid kids] ic]; reflexivity. Qed.

Lemma finish_menu_ok labels items tr menu :
  finish_menu labels items = (tr, Ok menu) ->
  menu = items /\ lookups tr = [] /\ calls tr = [].
Proof.
  destruct items; cbn; intros H; injection H as <- <-; auto.
Qed.






(** The builder returns a menu whenever every leaf action can be a key. *)
Lemma actions_get_hashable reg key :
  hashable key = true ->
  exists fn, actions_get reg key = ([Get key], Ok fn).
Proof. destruct key; cbn; intros H; try discriminate; eauto. Qed.

Lemma lookup_key_hashable a : hashable a = true -> hashable (lookup_key a) = true.
Proof. unfold lookup_key, py_or. destruct (truthy a); auto. Qed.

Lemma for_each_returns {A B : Type} (f : A -> M B) xs :
  Forall (fun x => exists tr y, f x = (tr, Ok y)) xs ->
  exists tr ys, for_each f xs = (tr, Ok ys).
Proof.
  induction 1 as [|x xs (tr & y & Hx) _ (trs & ys & Hxs)]; cbn [for_each].
  - eexists _, _. reflexivity.
  - rewrite Hx, bind_ok, Hxs. cbn. eexists _, _. reflexivity.
Qed.

Lemma finish_menu_returns labels items :
  exists tr, finish_menu labels items = (tr, Ok items).
Proof. destruct items; cbn; eauto. Qed.

Lemma build_item_returns reg node :
  forallb hashable (leaf_action node) = true ->
  forall le, exists tr item, build_item reg le node = (tr, Ok item).
Proof.
  induction node as [node IH] using MenuNode_tree_ind.
  intros Hleaf le. rewrite build_item_eq.
  destruct node as [t a dis chk kids ic].
  cbn [text action disabled checked children icon] in *.
  destruct kids as [|kid kids].
  - cbn in Hleaf. apply andb_prop in Hleaf as [Ha _].
    destruct (actions_get_hashable reg _ (lookup_key_hashable a Ha)) as [fn ->].
    rewrite bind_ok. cbn. eauto.
  - change (leaf_action _) with (flat_map leaf_action (kid :: kids)) in Hleaf.
    assert (Hall : Forall (fun x => exists tr y,
                             build_item reg (last (kid :: kids)) x = (tr, Ok y))
                     (kid :: kids)).
    { revert Hleaf IH. generalize (last (kid :: kids)). generalize (kid :: kids).
      intros l le'. induction l as [|x l IHl]; intros Hleaf IH; constructor.
      - cbn [flat_map] in Hleaf. rewrite forallb_app in Hleaf.
        apply andb_prop in Hleaf as [Hx _]. apply (Forall_inv IH); exact Hx.
      - cbn [flat_map] in Hleaf. rewrite forallb_app in Hleaf.
        apply andb_prop in Hleaf as [_ Hl]. apply IHl; [exact Hl|].
        exact (Forall_inv_tail IH). }
    destruct (for_each_returns _ _ Hall) as (tr & items & ->).
    rewrite bind_ok.
    destruct (finish_menu_returns (map text (kid :: kids)) items) as [tr' Hf].
    cbn [fst snd]. rewrite Hf, bind_ok. cbn. eauto.
Qed.

Lemma build_returns reg nodes :
  forallb hashable (leaf_actions nodes) = true ->
  exists tr menu, _build_pystray_menu reg nodes = (tr, Ok menu).
Proof.
  intros Hleaf. unfold _build_pystray_menu.
  assert (Hall : Forall (fun x => exists tr y,
                           build_item reg (last nodes) x = (tr, Ok y)) nodes).
  { revert Hleaf. generalize (last nodes). intros le.
    unfold leaf_actions. induction nodes as [|x l IHl]; intros Hleaf; constructor.
    - cbn [flat_map] in Hleaf. rewrite forallb_app in Hleaf.
      apply andb_prop in Hleaf as [Hx _]. apply build_item_returns. exact Hx.
    - cbn [flat_map] in Hleaf. rewrite forallb_app in Hleaf.
      apply andb_prop in Hleaf as [_ Hl]. apply IHl. exact Hl. }
  destruct (for_each_returns _ _ Hall) as (tr & items & ->).
  rewrite bind_ok. destruct (finish_menu_returns (map text nodes) items) as [tr' Hf].
  cbn [fst snd]. rewrite Hf. eauto.
Qed.

(** The checked state of a leaf, as the native library reads it off the
    built item: absent for an unchecked node, and for a checked node the
    [checked] attribute of the node the loop ended at. *)
Lemma leaf_checked_state reg loop_end node tr item :
  children node = [] ->
  build_item reg loop_end node = (tr, Ok item) ->
  checked_state item =
  if checked node then checked <$> loop_end else None.
Proof.
  intros Hleaf H. rewrite build_item_eq, Hleaf in H.
  apply bind_ok_inv in H as (tr1 & fn & tr2 & _ & H & _).
  cbn in H. injection H as _ <-. cbn.
  destruct (checked node); [|reflexivity]. destruct loop_end; reflexivity.
Qed.

(** C5 fails on the code: in the menu built from a checked leaf followed by
    an unchecked one, the first item has a checked-state callback, and that
    callback answers with the state of the last node, false, where the
    node's own state at build time is true. *)
Theorem checked_callback_reads_last_node :
  exists tr first second,
    _build_pystray_menu ∅ checked_then_unchecked = (tr, Ok [first; second])
    /\ map checked checked_then_unchecked = [true; false]
    /\ checked_state first = Some false
    /\ checked_state second = None.
Proof.
  eexists _, _, _. vm_compute. repeat split.
Qed.

(** ** Registration and dispatch *)

Lemma register_action_lookup name f (reg : gmap string ActionCallback) :
  name <> "" -> register_action name (Callable f) reg !! name = Some f.
Proof.
  intros Hname. unfold register_action.
  destruct (String.eqb_spec name ""); [contradiction|]. apply lookup_insert_eq.
Qed.

Lemma register_action_other name fn n (reg : gmap string ActionCallback) :
  n <> name -> register_action name fn reg !! n = reg !! n.
Proof.
  intros Hn. unfold register_action.
  destruct (String.eqb name ""); [reflexivity|].
  destruct fn; [|reflexivity]. apply lookup_insert_ne. congruence.
Qed.

(** No registration removes a name: the registry only grows. *)
Lemma register_action_dom name fn (reg : gmap string ActionCallback) :
  dom reg ⊆ dom (register_action name fn reg).
Proof.
  unfold register_action. destruct (String.eqb name ""); [done|].
  destruct fn; [|done]. rewrite dom_insert_L. set_solver.
Qed.

Lemma lookup_key_str name : lookup_key (VStr name) = VStr name.
Proof.
  unfold lookup_key, py_or. cbn.
  destruct (String.eqb_spec name ""); [subst|]; reflexivity.
Qed.

Lemma build_leaf reg loop_end node name :
  children node = [] -> action node = VStr name ->
  build_item reg loop_end node =
  ([Get (VStr name)],
   Ok (Item (text node) (reg !! name) (VStr name) (negb (disabled node))
         (if checked node then CheckedOf <$> loop_end else None) false)).
Proof.
  intros Hleaf Hact. rewrite build_item_eq, Hleaf, Hact, lookup_key_str.
  reflexivity.
Qed.


(** The handler on an event it does not forward and whose action name is
    [name]. *)
Lemma handle_ext_dispatch json_loads prev
    (reg : gmap string ActionCallback) evt name :
  foreign evt = false ->
  event_action_name json_loads evt = VStr name ->
  _handle_ext json_loads prev reg evt =
  own_event_run prev evt (VStr name) (VStr name)
    (event_payload json_loads evt) (reg !! name).
Proof.
  intros Hforeign Hname. unfold _handle_ext, own_event_run.
  change (truthy (evt_extension_name evt)
          && differs_from_extension_name (evt_extension_name evt))
    with (foreign evt).
  rewrite Hforeign, Hname.
  change (py_or (VStr name) (VStr "")) with (lookup_key (VStr name)).
  rewrite lookup_key_str. cbn [actions_get]. rewrite bind_ok.
  destruct (reg !! name) as [f|].
  - unfold call, try_except.
    destruct (f (event_payload json_loads evt)) as [[]|[e|code|]];
      destruct prev as [h|]; cbn; try destruct (h evt) as [[]|[e'|code'|]];
      reflexivity.
  - destruct prev as [h|]; cbn; try destruct (h evt) as [[]|[e'|code'|]];
      reflexivity.
Qed.

(** C1, as the code has it: after a callback is registered under a
    non-empty name, (a) a menu leaf built for that name invokes, when it is
    clicked, that callback and nothing else, once, with the payload
    [{action: name}]; (b) the extension handler, on an event it does not
    forward and whose action name is that name, invokes that callback and
    nothing else, once, with the data of the event, decoded when it is a
    JSON string. *)
Theorem register_then_dispatch
    (json_loads : string -> option pyval)
    (prev : option (ExtEvent -> effect unit))
    (reg : gmap string ActionCallback) (name : string) (f : ActionCallback) :
  name <> "" ->
  (forall loop_end node,
     children node = [] -> action node = VStr name ->
     exists item,
       build_item (register_action name (Callable f) reg) loop_end node
       = ([Get (VStr name)], Ok item)
       /\ calls (click item).1 = [(f, VDict [("action", VStr name)])]
       /\ carries_action (VDict [("action", VStr name)]) name)
  /\ (forall evt,
        foreign evt = false -> event_action_name json_loads evt = VStr name ->
        calls (_handle_ext json_loads prev
                 (register_action name (Callable f) reg) evt).1
        = [(f, event_payload json_loads evt)]).
Proof.
  intros Hname. split.
  - intros loop_end node Hleaf Hact. eexists. split; [|split].
    + rewrite (build_leaf _ _ _ name Hleaf Hact). reflexivity.
    + rewrite register_action_lookup by exact Hname. cbn.
      unfold _cb, call, try_except.
      destruct (f (VDict [("action", VStr name)])) as [[]|[e|code|]]; reflexivity.
    + eexists. repeat split.
  - intros evt Hforeign Hact.
    rewrite (handle_ext_dispatch _ _ _ _ name Hforeign Hact).
    rewrite register_action_lookup by exact Hname. unfold own_event_run.
    destruct (f (event_payload json_loads evt)) as [[]|[e|code|]];
      destruct prev; reflexivity.
Qed.

(** C1 at a name registered twice: the second callback is the one invoked,
    from the menu and from an event whose JSON data names the action. *)
Lemma register_then_dispatch_witness :
  (exists item,
     build_item (register_action "hello" (Callable says_ok)
          (register_action "hello" (Callable (fails_with "stale")) ∅)) None
       (mkMenuNode (VStr "Say hello") (VStr "hello") false false [] VNone)
     = ([Get (VStr "hello")], Ok item)
     /\ calls (click item).1 = [(says_ok, VDict [("action", VStr "hello")])]
     /\ carries_action (VDict [("action", VStr "hello")]) "hello")
  /\ calls (_handle_ext json_one_message None
              (register_action "hello" (Callable says_ok)
          (register_action "hello" (Callable (fails_with "stale")) ∅))
              (mkExtEvent VNone VNone VNone (VStr hello_message))).1
     = [(says_ok, event_payload json_one_message
                    (mkExtEvent VNone VNone VNone (VStr hello_message)))].
Proof.
  destruct (register_then_dispatch json_one_message None
              (register_action "hello" (Callable (fails_with "stale")) ∅)
              "hello" says_ok)
    as [Hmenu Hext]; [discriminate|].
  split; [apply Hmenu; reflexivity | apply Hext; reflexivity].
Defined.

(** C1 as stated fails: on an event that names the action and carries no
    data, the handler invokes the registered callback with [None], a
    payload without an [action] entry. *)
Lemma extension_payload_lacks_action :
  calls (_handle_ext json_rejects None
           (register_action "hello" (Callable says_ok) ∅)
           (mkExtEvent VNone (VStr "hello") VNone VNone)).1
  = [(says_ok, VNone)]
  /\ ~ carries_action VNone "hello".
Proof.
  split; [reflexivity|]. intros (d & Hd & _). discriminate Hd.
Qed.

(** C7, as the code has it: when a name is missing from the registry at
    dispatch time, (a) the click on a menu leaf built for that name at any
    earlier state of the registry prints the no-handler line, invokes
    nothing and returns; (b) the extension handler, on an event it does not
    forward and whose action name is that name, looks the name up, invokes
    no callback, prints nothing, calls the previous handler and ends as
    that call ends behind [except Exception]: it returns unless the previous
    handler raises an exception that does not derive from [Exception]. *)
Theorem unregistered_dispatch_is_noop
    (json_loads : string -> option pyval)
    (prev : option (ExtEvent -> effect unit))
    (built_with reg : gmap string ActionCallback) (name : string) :
  reg !! name = None ->
  dom built_with ⊆ dom reg ->
  (forall loop_end node,
     children node = [] -> action node = VStr name ->
     exists item,
       build_item built_with loop_end node = ([Get (VStr name)], Ok item)
       /\ click item = ([Print (NoHandler (VStr name))], Ok tt))
  /\ (forall evt,
        foreign evt = false -> event_action_name json_loads evt = VStr name ->
        _handle_ext json_loads prev reg evt
        = (Get (VStr name) :: prev_call prev evt, prev_outcome prev evt)).
Proof.
  intros Hmissing Hgrows. split.
  - intros loop_end node Hleaf Hact.
    assert (Hbuilt : built_with !! name = None).
    { apply not_elem_of_dom. intros Hin. apply Hgrows in Hin.
      apply not_elem_of_dom in Hmissing. contradiction. }
    eexists. split.
    + rewrite (build_leaf _ _ _ name Hleaf Hact). reflexivity.
    + rewrite Hbuilt. reflexivity.
  - intros evt Hforeign Hact.
    rewrite (handle_ext_dispatch _ _ _ _ name Hforeign Hact), Hmissing.
    reflexivity.
Qed.

(** C7 at a registry that has grown since the menu was built and still
    lacks the name. *)
Lemma unregistered_dispatch_is_noop_witness :
  (exists item,
     build_item ∅ None
       (mkMenuNode (VStr "Ghost") (VStr "ghost") false false [] VNone)
     = ([Get (VStr "ghost")], Ok item)
     /\ click item = ([Print (NoHandler (VStr "ghost"))], Ok tt))
  /\ _handle_ext json_rejects (Some (fun _ => Raise (Exc (UserError "prev"))))
       (register_action "hello" (Callable says_ok) ∅)
       (mkExtEvent (VStr "tray") (VStr "ghost") VNone VNone)
     = (Get (VStr "ghost")
        :: prev_call (Some (fun _ => Raise (Exc (UserError "prev"))))
             (mkExtEvent (VStr "tray") (VStr "ghost") VNone VNone), Ok tt).
Proof.
  destruct (unregistered_dispatch_is_noop json_rejects
              (Some (fun _ => Raise (Exc (UserError "prev"))))
              ∅ (register_action "hello" (Callable says_ok) ∅) "ghost")
    as [Hmenu Hext]; [reflexivity | apply register_action_dom |].
  split; [apply Hmenu; reflexivity | apply Hext; reflexivity].
Defined.

(** C7 as stated fails: the extension handler prints nothing for a name
    that is missing from the registry. *)
Lemma extension_unregistered_not_logged :
  (∅ : gmap string ActionCallback) !! "ghost" = None
  /\ _handle_ext json_rejects None ∅ (mkExtEvent VNone (VStr "ghost") VNone VNone)
     = ([Get (VStr "ghost")], Ok tt)
  /\ printed [Get (VStr "ghost")] = [].
Proof. repeat split. Qed.




(** C6, as the code has it: on an event whose extension name is truthy and
    is not this bridge's name, the handler calls the previous handler with
    the event as it came, ends the way that call ends, and does nothing
    else: no registry lookup, no callback, no line printed; with no
    callable previous handler it does nothing at all. *)
Theorem foreign_event_forwarded
    (json_loads : string -> option pyval)
    (reg : gmap string ActionCallback) (evt : ExtEvent) :
  truthy (evt_extension_name evt) = true ->
  evt_extension_name evt <> VStr EXTENSION_NAME ->
  (forall prev,
     _handle_ext json_loads (Some prev) reg evt = ([CallPrev evt], prev evt))
  /\ _handle_ext json_loads None reg evt = ret tt.
Proof.
  intros Htruthy Hdiffers.
  assert (Hforeign : truthy (evt_extension_name evt)
                     && differs_from_extension_name (evt_extension_name evt) = true).
  { rewrite Htruthy. cbn [andb]. unfold differs_from_extension_name.
    destruct (evt_extension_name evt) as [| | |s| |]; try reflexivity.
    destruct (String.eqb_spec s EXTENSION_NAME); [congruence | reflexivity]. }
  unfold _handle_ext. rewrite Hforeign. split; reflexivity.
Qed.

(** C6 at an event of an extension named [other], with the action [hello]
    registered. *)
Lemma foreign_event_forwarded_witness :
  (forall prev,
     _handle_ext json_rejects (Some prev)
       (register_action "hello" (Callable says_ok) ∅)
       (mkExtEvent (VStr "other") (VStr "hello") VNone VNone)
     = ([CallPrev (mkExtEvent (VStr "other") (VStr "hello") VNone VNone)],
        prev (mkExtEvent (VStr "other") (VStr "hello") VNone VNone)))
  /\ _handle_ext json_rejects None
       (register_action "hello" (Callable says_ok) ∅)
       (mkExtEvent (VStr "other") (VStr "hello") VNone VNone)
     = ret tt.
Proof.
  apply (foreign_event_forwarded json_rejects
           (register_action "hello" (Callable says_ok) ∅)
           (mkExtEvent (VStr "other") (VStr "hello") VNone VNone));
    [reflexivity | discriminate].
Defined.

(** C6 as stated fails: an event whose extension name is present, empty,
    and so different from the bridge's name is not forwarded; the registry
    is looked up and the callback invoked. *)
Lemma empty_extension_name_is_dispatched :
  evt_extension_name (mkExtEvent (VStr "") (VStr "hello") VNone VNone) <> VNone
  /\ evt_extension_name (mkExtEvent (VStr "") (VStr "hello") VNone VNone)
     <> VStr EXTENSION_NAME
  /\ _handle_ext json_rejects (Some (fun _ => Ok tt))
       (register_action "hello" (Callable says_ok) ∅)
       (mkExtEvent (VStr "") (VStr "hello") VNone VNone)
     = ([Get (VStr "hello"); Call says_ok VNone;
         CallPrev (mkExtEvent (VStr "") (VStr "hello") VNone VNone)], Ok tt).
Proof. repeat split; discriminate. Qed.

(** ** The tray session *)

(** C9: whatever the native [stop] does in whatever state the native icon
    is, [TrayApp.stop] returns; so does a second [TrayApp.stop] right after
    it. *)
Theorem stop_never_raises
    (Icon : Type) (Icon_stop : Icon -> Icon * outcome unit)
    (self : TrayApp.t Icon) :
  (TrayApp.stop Icon Icon_stop self).2 = ret tt
  /\ (TrayApp.stop Icon Icon_stop (TrayApp.stop Icon Icon_stop self).1).2 = ret tt.
Proof.
  assert (Hstop : forall app, (TrayApp.stop Icon Icon_stop app).2 = ret tt).
  { intros app. unfold TrayApp.stop.
    destruct (Icon_stop (TrayApp.icon Icon app)) as [native [[]|e]]; reflexivity. }
  split; apply Hstop.
Qed.

(** The constructor once the menu has normalised. *)
Lemma init_after_normalise
    (Image Icon : Type)
    (Image_open : string -> outcome Image)
    (Image_new : Z * Z -> Z * Z * Z -> Image)
    (pystray_Icon : string -> Image -> string -> list MenuItem -> outcome Icon)
    (self : TrayApp.ref) (name title : string) (icon_path : option string)
    (on_open on_exit : TrayApp.TrayCallback) (menu : pyval)
    (fallback_color : Z * Z * Z) (reg : gmap string ActionCallback)
    (nodes : list MenuNode) :
  _normalise_menu (py_or menu (VList [])) = Ok nodes ->
  let menu_nodes := match nodes with [] => TrayApp.default_menu_nodes | _ :: _ => nodes end in
  let registry :=
    register_action "exit" (Callable (fun _ => on_exit self))
      (register_action "open" (Callable (fun _ => on_open self)) reg) in
  TrayApp.__init__ Image Icon Image_open Image_new pystray_Icon self name title
    icon_path on_open on_exit menu fallback_color reg
  = (registry,
     match _build_pystray_menu registry menu_nodes with
     | (tr, Ok built) =>
         match pystray_Icon name
                 (TrayApp._load_icon Image Image_open Image_new icon_path
                    fallback_color) title built with
         | Ok native =>
             ([Print (MenuNodes (map text menu_nodes));
               Print (BuildingMenu (dom registry))] ++ tr,
              Ok (TrayApp.mk Icon icon_path on_open on_exit fallback_color
                    menu_nodes native))
         | Raise e =>
             ([Print (MenuNodes (map text menu_nodes));
               Print (BuildingMenu (dom registry))] ++ tr
              ++ [Print (IconFailed e)], Raise (Exc e))
         end
     | (tr, Raise (Exc e)) =>
         ([Print (MenuNodes (map text menu_nodes));
           Print (BuildingMenu (dom registry))] ++ tr
          ++ [Print (IconFailed e)], Raise (Exc e))
     | (tr, Raise r) =>
         ([Print (MenuNodes (map text menu_nodes));
           Print (BuildingMenu (dom registry))] ++ tr, Raise r)
     end)%list.
Proof.
  intros Hnorm menu_nodes registry. unfold TrayApp.__init__. rewrite Hnorm.
  fold menu_nodes. fold registry. f_equal.
  destruct (_build_pystray_menu registry menu_nodes) as [tr [built|[e|code|]]]
    eqn:Hbuilt.
  - cbn [bind print try_except].
    destruct (pystray_Icon name _ title built) as [native|e]; cbn;
      rewrite ?app_nil_r; reflexivity.
  - cbn. reflexivity.
  - cbn. reflexivity.
  - cbn. reflexivity.
Qed.

(** The menu built from the default nodes under a registry that holds the
    constructor's two callbacks. *)
Lemma default_menu_built
    (on_open on_exit : TrayApp.TrayCallback) (self : TrayApp.ref)
    (reg : gmap string ActionCallback) :
  _build_pystray_menu
    (register_action "exit" (Callable (fun _ => on_exit self))
       (register_action "open" (Callable (fun _ => on_open self)) reg))
    TrayApp.default_menu_nodes
  = ([Get (VStr "open"); Get (VStr "exit");
      Print (PystrayMenuItems [VStr "Open"; VStr "Exit"])],
     Ok [Item (VStr "Open") (Some (fun _ => on_open self)) (VStr "open") true
           None false;
         Item (VStr "Exit") (Some (fun _ => on_exit self)) (VStr "exit") true
           None false]).
Proof.
  unfold _build_pystray_menu, TrayApp.default_menu_nodes. cbn [for_each].
  rewrite (build_leaf _ _ _ "open") by reflexivity.
  rewrite (build_leaf _ _ _ "exit") by reflexivity.
  rewrite register_action_other by discriminate.
  rewrite !register_action_lookup by discriminate. reflexivity.
Qed.

(** C10, as the code has it: a construction of [TrayApp] whose menu
    normalises leaves the registry with the callback that calls [on_open]
    under [open] and the callback that calls [on_exit] under [exit],
    whatever was registered under these names before, whatever that menu is
    and whether or not the native icon is then created; when the menu
    supplied is absent or empty, the construction hands the native library
    the two enabled items [Open] and [Exit], bound to the actions [open]
    and [exit] and to these two callbacks, and when the native library
    makes an icon of them the tray's menu is the two nodes [Open] with
    action [open] and [Exit] with action [exit]; when it does not, the
    failure is printed and raised again. *)
Theorem init_installs_default_menu_and_builtins
    (Image Icon : Type)
    (Image_open : string -> outcome Image)
    (Image_new : Z * Z -> Z * Z * Z -> Image)
    (pystray_Icon : string -> Image -> string -> list MenuItem -> outcome Icon)
    (self : TrayApp.ref) (name title : string) (icon_path : option string)
    (on_open on_exit : TrayApp.TrayCallback) (menu : pyval)
    (fallback_color : Z * Z * Z)
    (reg : gmap string ActionCallback) (nodes : list MenuNode) :
  _normalise_menu (py_or menu (VList [])) = Ok nodes ->
  (TrayApp.__init__ Image Icon Image_open Image_new pystray_Icon self name title
     icon_path on_open on_exit menu fallback_color reg).1 !! "open"
  = Some (fun _ => on_open self)
  /\ (TrayApp.__init__ Image Icon Image_open Image_new pystray_Icon self name title
        icon_path on_open on_exit menu fallback_color reg).1 !! "exit"
     = Some (fun _ => on_exit self)
  /\ (truthy menu = false ->
      (TrayApp.__init__ Image Icon Image_open Image_new pystray_Icon self name
         title icon_path on_open on_exit menu fallback_color reg).2
      = match
          pystray_Icon name
            (TrayApp._load_icon Image Image_open Image_new icon_path
               fallback_color) title
            [Item (VStr "Open") (Some (fun _ => on_open self)) (VStr "open")
               true None false;
             Item (VStr "Exit") (Some (fun _ => on_exit self)) (VStr "exit")
               true None false]
        with
        | Ok native =>
            ([Print (MenuNodes [VStr "Open"; VStr "Exit"]);
              Print (BuildingMenu
                       (dom (TrayApp.__init__ Image Icon Image_open Image_new
                               pystray_Icon self name title icon_path on_open
                               on_exit menu fallback_color reg).1));
              Get (VStr "open"); Get (VStr "exit");
              Print (PystrayMenuItems [VStr "Open"; VStr "Exit"])],
             Ok (TrayApp.mk Icon icon_path on_open on_exit fallback_color
                   [mkMenuNode (VStr "Open") (VStr "open") false false [] VNone;
                    mkMenuNode (VStr "Exit") (VStr "exit") false false [] VNone]
                   native))
        | Raise e =>
            ([Print (MenuNodes [VStr "Open"; VStr "Exit"]);
              Print (BuildingMenu
                       (dom (TrayApp.__init__ Image Icon Image_open Image_new
                               pystray_Icon self name title icon_path on_open
                               on_exit menu fallback_color reg).1));
              Get (VStr "open"); Get (VStr "exit");
              Print (PystrayMenuItems [VStr "Open"; VStr "Exit"]);
              Print (IconFailed e)], Raise (Exc e))
        end).
Proof.
  intros Hnorm. split; [|split].
  - rewrite (init_after_normalise Image Icon Image_open Image_new pystray_Icon
               self name title icon_path on_open on_exit menu fallback_color reg
               nodes Hnorm).
    cbn zeta. cbn [fst]. rewrite register_action_other by discriminate.
    apply register_action_lookup. discriminate.
  - rewrite (init_after_normalise Image Icon Image_open Image_new pystray_Icon
               self name title icon_path on_open on_exit menu fallback_color reg
               nodes Hnorm).
    cbn zeta. cbn [fst]. apply register_action_lookup. discriminate.
  - intros Hfalsy.
    assert (Hempty : _normalise_menu (py_or menu (VList [])) = Ok [])
      by (unfold py_or; rewrite Hfalsy; reflexivity).
    rewrite (init_after_normalise Image Icon Image_open Image_new pystray_Icon
               self name title icon_path on_open on_exit menu fallback_color reg
               [] Hempty).
    cbn beta iota zeta. cbn [fst snd]. rewrite default_menu_built.
    destruct (pystray_Icon _ _ _ _) as [native|e]; reflexivity.
Qed.

(** C10 at a construction with no menu, over a registry that already had a
    callback under [open], with an exit callback that ends the process. *)
Lemma init_installs_default_menu_and_builtins_witness :
  (TrayApp.__init__ unit (list MenuItem) no_image blank_image icon_of_menu 1
     "demo" "Demo" None (fun _ => Ok tt) (fun _ => Raise (SystemExit (VInt 0)))
     VNone (128, 128, 128)%Z
     (register_action "open" (Callable (fails_with "old")) ∅)).1 !! "open"
  = Some (fun _ => Ok tt)
  /\ (TrayApp.__init__ unit (list MenuItem) no_image blank_image icon_of_menu 1
        "demo" "Demo" None (fun _ => Ok tt)
        (fun _ => Raise (SystemExit (VInt 0))) VNone (128, 128, 128)%Z
        (register_action "open" (Callable (fails_with "old")) ∅)).1 !! "exit"
     = Some (fun _ => Raise (SystemExit (VInt 0)))
  /\ (truthy VNone = false ->
      (TrayApp.__init__ unit (list MenuItem) no_image blank_image icon_of_menu 1
         "demo" "Demo" None (fun _ => Ok tt)
         (fun _ => Raise (SystemExit (VInt 0))) VNone (128, 128, 128)%Z
         (register_action "open" (Callable (fails_with "old")) ∅)).2
      = match
          icon_of_menu "demo"
            (TrayApp._load_icon unit no_image blank_image None (128, 128, 128)%Z)
            "Demo"
            [Item (VStr "Open") (Some (fun _ => Ok tt)) (VStr "open") true None
               false;
             Item (VStr "Exit") (Some (fun _ => Raise (SystemExit (VInt 0))))
               (VStr "exit") true None false]
        with
        | Ok native =>
            ([Print (MenuNodes [VStr "Open"; VStr "Exit"]);
              Print (BuildingMenu
                       (dom (TrayApp.__init__ unit (list MenuItem) no_image
                               blank_image icon_of_menu 1 "demo" "Demo" None
                               (fun _ => Ok tt)
                               (fun _ => Raise (SystemExit (VInt 0))) VNone
                               (128, 128, 128)%Z
                               (register_action "open"
                                  (Callable (fails_with "old")) ∅)).1));
              Get (VStr "open"); Get (VStr "exit");
              Print (PystrayMenuItems [VStr "Open"; VStr "Exit"])],
             Ok (TrayApp.mk (list MenuItem) None (fun _ => Ok tt)
                   (fun _ => Raise (SystemExit (VInt 0))) (128, 128, 128)%Z
                   [mkMenuNode (VStr "Open") (VStr "open") false false [] VNone;
                    mkMenuNode (VStr "Exit") (VStr "exit") false false [] VNone]
                   native))
        | Raise e =>
            ([Print (MenuNodes [VStr "Open"; VStr "Exit"]);
              Print (BuildingMenu
                       (dom (TrayApp.__init__ unit (list MenuItem) no_image
                               blank_image icon_of_menu 1 "demo" "Demo" None
                               (fun _ => Ok tt)
                               (fun _ => Raise (SystemExit (VInt 0))) VNone
                               (128, 128, 128)%Z
                               (register_action "open"
                                  (Callable (fails_with "old")) ∅)).1));
              Get (VStr "open"); Get (VStr "exit");
              Print (PystrayMenuItems [VStr "Open"; VStr "Exit"]);
              Print (IconFailed e)], Raise (Exc e))
        end).
Proof.
  apply (init_installs_default_menu_and_builtins unit (list MenuItem) no_image
           blank_image icon_of_menu 1 "demo" "Demo" None (fun _ => Ok tt)
           (fun _ => Raise (SystemExit (VInt 0))) VNone (128, 128, 128)%Z
           (register_action "open" (Callable (fails_with "old")) ∅) []).
  reflexivity.
Defined.

(** C10 as stated fails: a construction whose menu is a list of dicts, one
    of them with a number for child data, raises while the menu is
    normalised and registers nothing under [open] or [exit]. *)
Lemma malformed_menu_registers_nothing :
  TrayApp.__init__ unit (list MenuItem) no_image blank_image icon_of_menu 1
    "demo" "Demo" None (fun _ => Ok tt) (fun _ => Ok tt)
    (VList [VDict [("text", VStr "Tools"); ("items", VInt 5)]])
    (128, 128, 128)%Z ∅
  = (∅, ([], Raise (Exc (TypeError "'int' object is not iterable"))))
  /\ (∅ : gmap string ActionCallback) !! "open" = None
  /\ (∅ : gmap string ActionCallback) !! "exit" = None.
Proof. repeat split. Qed.

(** A native icon whose second [stop] raises: both calls of [TrayApp.stop]
    return all the same. *)
Example stop_twice_on_raising_icon :
  let app :=
    TrayApp.mk (list MenuItem) None (fun _ => Ok tt) (fun _ => Ok tt)
      (128, 128, 128)%Z [] [Item (VStr "Open") None (VStr "open") true None false] in
  stop_once (TrayApp.icon _ (TrayApp.stop _ stop_once app).1)
  = ([], Raise (UserError "icon is not running"))
  /\ (TrayApp.stop _ stop_once (TrayApp.stop _ stop_once app).1).2 = ret tt.
Proof. split; reflexivity. Qed.

(** * Further properties *)

(** ** The normaliser on arbitrary values *)

(** Induction on Python values: a property of a list follows from the
    property of its elements, a property of a dict from the property of its
    values. *)
Lemma pyval_tree_ind (P : pyval -> Prop) :
  P VNone -> (forall b, P (VBool b)) -> (forall z, P (VInt z)) ->
  (forall s, P (VStr s)) ->
  (forall l, Forall P l -> P (VList l)) ->
  (forall d, Forall (fun kv => P kv.2) d -> P (VDict d)) ->
  forall v, P v.
Proof.
  intros HNone HBool HInt HStr HList HDict. fix IH 1. intros [|b|z|s|l|d].
  - exact HNone.
  - apply HBool.
  - apply HInt.
  - apply HStr.
  - apply HList. induction l as [|v l IHl]; constructor; [apply IH | exact IHl].
  - apply HDict. induction d as [|[k v] d IHd]; constructor; [apply IH | exact IHd].
Qed.

Lemma well_formed_list l :
  well_formed_menu (VList l) = forallb well_formed_record l.
Proof.
  assert (Hrec : forall item,
            match item with
            | VDict d =>
                if truthy (dict_get d "items")
                then dict_get_with well_formed_menu true d "items"
                else dict_get_with well_formed_menu true d "children"
            | _ => false
            end = well_formed_record item).
  { intros [| | | | |d]; try reflexivity.
    cbn [well_formed_record]. unfold child_data.
    assert (Hget : forall k, dict_get_with well_formed_menu true d k
                             = well_formed_menu (dict_get d k))
      by (intros k; exact (dict_get_with_get well_formed_menu d k)).
    destruct (truthy (dict_get d "items")); apply Hget. }
  cbn [well_formed_menu]. induction l as [|item l IH]; [reflexivity|].
  cbn [forallb]. rewrite Hrec, IH. reflexivity.
Qed.

Lemma dict_get_cases (P : pyval -> Prop) d k :
  P VNone -> Forall (fun kv => P kv.2) d -> P (dict_get d k).
Proof.
  intros HNone Hd. unfold dict_get, dict_get_with.
  induction Hd as [|[k' v] d Hv _ IH]; [exact HNone|].
  destruct (String.eqb k k'); [exact Hv | exact IH].
Qed.

Lemma normalise_returned_list l :
  Forall (fun item => forall d, item = VDict d ->
            well_formed_menu (child_data d)
            = returned (_normalise_menu (child_data d))) l ->
  well_formed_menu (VList l) = returned (_normalise_menu (VList l)).
Proof.
  rewrite well_formed_list.
  induction 1 as [|item l Hitem _ IH]; [reflexivity|].
  cbn [forallb]. destruct item as [| | | | |d]; try reflexivity.
  rewrite normalise_cons. cbn [well_formed_record].
  rewrite (Hitem d eq_refl), IH.
  destruct (_normalise_menu (child_data d)); [|reflexivity].
  destruct (_normalise_menu (VList l)); reflexivity.
Qed.

Lemma well_formed_returned (menu : pyval) :
  well_formed_menu menu = returned (_normalise_menu menu).
Proof.
  enough (H : (fun v =>
                 well_formed_menu v = returned (_normalise_menu v)
                 /\ match v with
                    | VDict d =>
                        forall k, well_formed_menu (dict_get d k)
                                  = returned (_normalise_menu (dict_get d k))
                    | _ => True
                    end) menu) by exact (proj1 H).
  induction menu as [|b|z|s|l IH|d IH] using pyval_tree_ind.
  - split; reflexivity.
  - split; [destruct b; reflexivity | exact I].
  - split; [cbn; destruct (Z.eqb z 0); reflexivity | exact I].
  - split; [cbn; destruct (String.eqb s ""); reflexivity | exact I].
  - split; [|exact I]. apply normalise_returned_list.
    eapply Forall_impl; [exact IH|]. cbn beta.
    intros item [_ Hitem] d ->. unfold child_data.
    destruct (truthy (dict_get d "items")); apply Hitem.
  - split; [destruct d; reflexivity|].
    intros k.
    apply (dict_get_cases
             (fun v => well_formed_menu v = returned (_normalise_menu v)));
      [reflexivity|].
    eapply Forall_impl; [exact IH|]. intros kv [H _]. exact H.
Qed.

(** X1: the normaliser returns exactly on the well-formed descriptions: a
    falsy value, or a list of dicts whose child data is well formed in
    turn; on anything else, a non-dict record or non-list child data at any
    depth, it raises. *)
Theorem normalise_returns_iff_well_formed (menu : pyval) :
  well_formed_menu menu = returned (_normalise_menu menu).
Proof. apply well_formed_returned. Qed.

Lemma labelled_eq node :
  labelled node = truthy (text node) && forallb labelled (children node).
Proof. destruct node; reflexivity. Qed.

Lemma without_icon_eq node :
  without_icon node =
  mkMenuNode (text node) (action node) (disabled node) (checked node)
    (map without_icon (children node)) VNone.
Proof. destruct node; reflexivity. Qed.

(** Every label the normaliser writes is truthy. *)
Lemma record_labelled node :
  forall d,
    _normalise_menu (child_data d) = Ok (children node) ->
    node = node_of d (children node) ->
    labelled node = true.
Proof.
  induction node as [node IH] using MenuNode_tree_ind.
  intros d Hkids Hnode. rewrite labelled_eq.
  assert (Htext : text node = label_of d) by (rewrite Hnode; reflexivity).
  rewrite Htext, label_of_truthy. cbn [andb].
  destruct (normalise_ok_inv _ _ Hkids) as [[_ ->]|[l Hl]]; [reflexivity|].
  rewrite Hl in Hkids. apply normalise_list_inv in Hkids.
  clear Hl Hnode Htext. revert IH.
  induction Hkids as [|kid knode l kids (d' & _ & Hk & Hn) _ IHk];
    intros IH; [reflexivity|].
  cbn [forallb]. rewrite (Forall_inv IH d' Hk Hn). cbn [andb].
  apply IHk. exact (Forall_inv_tail IH).
Qed.

Lemma normalised_labelled menu nodes :
  _normalise_menu menu = Ok nodes -> forallb labelled nodes = true.
Proof.
  intros Hnorm.
  destruct (normalise_ok_inv _ _ Hnorm) as [[_ ->]|[l ->]]; [reflexivity|].
  apply normalise_list_inv in Hnorm.
  induction Hnorm as [|item node l nodes (d & _ & Hk & Hn) _ IH];
    [reflexivity|].
  cbn [forallb]. rewrite (record_labelled node d Hk Hn). exact IH.
Qed.

(** Emitting labelled nodes and normalising the result gives the nodes
    back without their icons. *)
Lemma labelled_round_trip_list kids :
  Forall (fun node =>
            labelled node = true ->
            forall rest,
              _normalise_menu (VList (node_to_dict node :: rest)) =
              match _normalise_menu (VList rest) with
              | Raise e => Raise e
              | Ok nodes => Ok (without_icon node :: nodes)
              end) kids ->
  forallb labelled kids = true ->
  _normalise_menu (VList (menu_to_dict kids)) = Ok (map without_icon kids).
Proof.
  induction kids as [|kid kids IH]; intros HR Hl; [reflexivity|].
  cbn [forallb] in Hl. apply andb_prop in Hl as [Hkid Hkids].
  change (menu_to_dict (kid :: kids)) with (node_to_dict kid :: menu_to_dict kids).
  rewrite (Forall_inv HR Hkid), (IH (Forall_inv_tail HR) Hkids). reflexivity.
Qed.

Lemma labelled_round_trip_node node :
  labelled node = true ->
  forall rest,
    _normalise_menu (VList (node_to_dict node :: rest)) =
    match _normalise_menu (VList rest) with
    | Raise e => Raise e
    | Ok nodes => Ok (without_icon node :: nodes)
    end.
Proof.
  induction node as [node IH] using MenuNode_tree_ind.
  intros Hl rest. rewrite labelled_eq in Hl.
  apply andb_prop in Hl as [Htext Hkids].
  rewrite node_to_dict_eq, normalise_cons, without_icon_eq.
  destruct node as [t a dis chk kids ic].
  cbn [text action disabled checked children icon] in *.
  destruct kids as [|kid kids].
  - cbn [app]. change (child_data _) with VNone.
    cbn [_normalise_menu]. unfold node_of, label_of, py_or.
    cbn -[truthy]. rewrite Htext.
    destruct dis, chk; reflexivity.
  - assert (Hcd : forall (x : pyval) xs,
              child_data ([("text", t); ("action", a); ("disabled", VBool dis);
                           ("checked", VBool chk)] ++ [("items", VList (x :: xs))])%list
              = VList (x :: xs)) by reflexivity.
    change (menu_to_dict (kid :: kids)) with (node_to_dict kid :: menu_to_dict kids) at 1.
    rewrite Hcd.
    change (node_to_dict kid :: menu_to_dict kids) with (menu_to_dict (kid :: kids)).
    rewrite (labelled_round_trip_list _ IH Hkids).
    unfold node_of, label_of, py_or.
    cbn -[truthy menu_to_dict without_icon map]. rewrite Htext.
    destruct dis, chk; reflexivity.
Qed.

(** X2: whatever aliases and keys a description uses, emitting the tree it
    normalises to and normalising again gives that tree with every [icon]
    reset to [None] and nothing else changed: the round trip loses the
    icons only. *)
Theorem round_trip_loses_only_icons (menu : pyval) (nodes : list MenuNode) :
  _normalise_menu menu = Ok nodes ->
  _normalise_menu (VList (menu_to_dict nodes)) = Ok (map without_icon nodes).
Proof.
  intros Hnorm. apply labelled_round_trip_list.
  - apply Forall_forall. intros node _. apply labelled_round_trip_node.
  - exact (normalised_labelled menu nodes Hnorm).
Qed.

(** X2 at a description that uses the aliases [label] and [children] and an
    [icon] key. *)
Lemma round_trip_loses_only_icons_witness :
  _normalise_menu
    (VList (menu_to_dict
       [mkMenuNode (VStr "Tools") VNone false false
          [mkMenuNode (VStr "Menu item") (VStr "quit") true false [] VNone]
          (VStr "gear.png")]))
  = Ok (map without_icon
          [mkMenuNode (VStr "Tools") VNone false false
             [mkMenuNode (VStr "Menu item") (VStr "quit") true false [] VNone]
             (VStr "gear.png")]).
Proof.
  apply (round_trip_loses_only_icons
           (VList [VDict [("label", VStr "Tools"); ("icon", VStr "gear.png");
                          ("children",
                           VList [VDict [("action", VStr "quit");
                                         ("disabled", VInt 1)]])]])).
  vm_compute. reflexivity.
Defined.

(** ** The emitter on arbitrary nodes *)

Lemma emitted_plain_list kids :
  Forall (fun node => plain_record (node_to_dict node) = true) kids ->
  plain_menu (VList (menu_to_dict kids)) = true.
Proof.
  rewrite plain_menu_list. unfold menu_to_dict.
  induction 1 as [|kid kids Hkid _ IH]; [reflexivity|].
  cbn [map forallb]. rewrite Hkid, IH. reflexivity.
Qed.

Lemma emitted_plain_node node : plain_record (node_to_dict node) = true.
Proof.
  induction node as [node IH] using MenuNode_tree_ind.
  rewrite node_to_dict_eq. destruct node as [t a dis chk kids ic].
  cbn [text action disabled checked children icon] in *.
  destruct kids as [|kid kids]; [reflexivity|].
  cbn [plain_record]. apply andb_true_intro. split; [reflexivity|].
  change (dict_get _ "items") with (VList (menu_to_dict (kid :: kids))).
  apply emitted_plain_list. exact IH.
Qed.

(** X3: whatever the nodes, [menu_to_dict] writes records that use the
    keys [text], [action], [disabled], [checked] and [items] and no other,
    at every depth: no [icon], no alias. *)
Theorem emitted_menu_is_plain (nodes : list MenuNode) :
  plain_menu (VList (menu_to_dict nodes)) = true.
Proof.
  apply emitted_plain_list. apply Forall_forall. intros node _.
  apply emitted_plain_node.
Qed.

Lemma renormalised_eq node :
  renormalised node =
  mkMenuNode (py_or (text node) (VStr "Menu item")) (action node)
    (disabled node) (checked node) (map renormalised (children node)) VNone.
Proof. destruct node; reflexivity. Qed.

Lemma renormalised_list kids :
  Forall (fun node =>
            forall rest,
              _normalise_menu (VList (node_to_dict node :: rest)) =
              match _normalise_menu (VList rest) with
              | Raise e => Raise e
              | Ok nodes => Ok (renormalised node :: nodes)
              end) kids ->
  _normalise_menu (VList (menu_to_dict kids)) = Ok (map renormalised kids).
Proof.
  induction kids as [|kid kids IH]; intros HR; [reflexivity|].
  change (menu_to_dict (kid :: kids)) with (node_to_dict kid :: menu_to_dict kids).
  rewrite (Forall_inv HR), (IH (Forall_inv_tail HR)). reflexivity.
Qed.

Lemma renormalised_node node :
  forall rest,
    _normalise_menu (VList (node_to_dict node :: rest)) =
    match _normalise_menu (VList rest) with
    | Raise e => Raise e
    | Ok nodes => Ok (renormalised node :: nodes)
    end.
Proof.
  induction node as [node IH] using MenuNode_tree_ind.
  intros rest.
  rewrite node_to_dict_eq, normalise_cons, renormalised_eq.
  destruct node as [t a dis chk kids ic].
  cbn [text action disabled checked children icon] in *.
  destruct kids as [|kid kids].
  - cbn [app]. change (child_data _) with VNone.
    change (_normalise_menu VNone) with (@Ok exn (list MenuNode) []).
    unfold node_of.
    change (label_of _) with (py_or t (VStr "Menu item")).
    destruct dis, chk; reflexivity.
  - assert (Hcd : forall (x : pyval) xs,
              child_data ([("text", t); ("action", a); ("disabled", VBool dis);
                           ("checked", VBool chk)] ++ [("items", VList (x :: xs))])%list
              = VList (x :: xs)) by reflexivity.
    change (menu_to_dict (kid :: kids)) with (node_to_dict kid :: menu_to_dict kids) at 1.
    rewrite Hcd.
    change (node_to_dict kid :: menu_to_dict kids) with (menu_to_dict (kid :: kids)).
    rewrite (renormalised_list _ IH). unfold node_of.
    change (label_of _) with (py_or t (VStr "Menu item")).
    destruct dis, chk; reflexivity.
Qed.

(** X4: what [menu_to_dict] emits always normalises, whatever the nodes
    (built by hand or by the normaliser): the result is the same tree with
    each falsy label replaced by the placeholder and each icon reset. *)
Theorem emitted_menu_normalises (nodes : list MenuNode) :
  _normalise_menu (VList (menu_to_dict nodes)) = Ok (map renormalised nodes).
Proof.
  apply renormalised_list. apply Forall_forall. intros node _.
  apply renormalised_node.
Qed.

(** ** The registry over many registrations *)

Lemma registrations_keep_empty_name_out registrations
    (reg : gmap string ActionCallback) :
  reg !! "" = None ->
  fold_left (fun reg '(name, fn) => register_action name fn reg) registrations reg
  !! "" = None.
Proof.
  revert reg. induction registrations as [|[name fn] rest IH]; intros reg Hreg;
    [exact Hreg|].
  cbn [fold_left]. apply IH. unfold register_action.
  destruct (String.eqb_spec name ""); [exact Hreg|].
  destruct fn; [|exact Hreg]. rewrite lookup_insert_ne by congruence. exact Hreg.
Qed.

(** X5: no run of registrations puts a callback under the empty name, so a
    leaf whose action is missing or falsy is built without a handler under
    any registry so obtained: clicking it prints the no-handler line, runs
    nothing and returns. *)
Theorem actionless_leaf_has_no_handler
    (registrations : list (string * pyobj)) (loop_end : option MenuNode)
    (node : MenuNode) :
  children node = [] -> truthy (action node) = false ->
  registry_after registrations !! "" = None
  /\ exists item,
       build_item (registry_after registrations) loop_end node
       = ([Get (VStr "")], Ok item)
       /\ click item = ([Print (NoHandler (action node))], Ok tt).
Proof.
  intros Hleaf Hfalsy.
  assert (Hempty : registry_after registrations !! "" = None)
    by (apply registrations_keep_empty_name_out; apply lookup_empty).
  split; [exact Hempty|].
  rewrite build_item_eq, Hleaf. unfold lookup_key, py_or. rewrite Hfalsy.
  cbn [actions_get]. rewrite bind_ok, Hempty. cbn.
  eexists. split; reflexivity.
Qed.

(** X5 at a node without action, after a registration under the empty name
    was tried. *)
Lemma actionless_leaf_has_no_handler_witness :
  registry_after [("", Callable says_ok); ("open", Callable says_ok)] !! "" = None
  /\ exists item,
       build_item (registry_after [("", Callable says_ok); ("open", Callable says_ok)])
         None (mkMenuNode (VStr "About") VNone false false [] VNone)
       = ([Get (VStr "")], Ok item)
       /\ click item = ([Print (NoHandler VNone)], Ok tt).
Proof.
  apply (actionless_leaf_has_no_handler
           [("", Callable says_ok); ("open", Callable says_ok)] None
           (mkMenuNode (VStr "About") VNone false false [] VNone));
    reflexivity.
Defined.

Lemma registrations_keep_other_names registrations name
    (reg : gmap string ActionCallback) :
  (forall fn, (name, fn) ∈ registrations -> valid_entry (name, fn) = false) ->
  fold_left (fun reg '(name, fn) => register_action name fn reg) registrations reg
  !! name = reg !! name.
Proof.
  revert reg. induction registrations as [|[n fn] rest IH]; intros reg Hinvalid;
    [reflexivity|].
  cbn [fold_left]. rewrite IH.
  - destruct (decide (name = n)) as [->|Hne];
      [|apply register_action_other; exact Hne].
    specialize (Hinvalid fn (list_elem_of_here _ _)). unfold register_action.
    destruct fn as [f|v]; cbn in Hinvalid.
    + destruct (String.eqb n ""); [reflexivity | discriminate].
    + destruct (String.eqb n ""); reflexivity.
  - intros fn' Hin. apply Hinvalid. apply list_elem_of_further. exact Hin.
Qed.

(** X6: [register_extension], given actions with distinct names as a dict
    has them, leaves every callable entry with a non-empty name registered
    under its name, and leaves alone every name that has no such entry,
    whatever the page offers. *)
Theorem register_extension_registers_valid_entries
    (json_loads : string -> option pyval) (page : Page)
    (actions : list (string * pyobj)) (reg : gmap string ActionCallback) :
  NoDup (map fst actions) ->
  (forall name f,
     (name, Callable f) ∈ actions -> name <> "" ->
     (register_extension json_loads page actions reg).1 !! name = Some f)
  /\ (forall name,
        (forall fn, (name, fn) ∈ actions -> valid_entry (name, fn) = false) ->
        (register_extension json_loads page actions reg).1 !! name = reg !! name).
Proof.
  intros Hnodup. cbn [register_extension fst]. split.
  - revert reg. induction actions as [|[n fn] rest IH];
      intros reg name f Hin Hname; [inversion Hin|].
    apply NoDup_cons in Hnodup as [Hfresh Hnodup]. cbn [fold_left].
    apply elem_of_cons in Hin as [Heq|Hin].
    + injection Heq as <- <-.
      rewrite registrations_keep_other_names.
      * apply register_action_lookup. exact Hname.
      * intros fn' Hin'. exfalso. apply Hfresh. cbn [map fst].
        apply list_elem_of_In. apply (in_map fst rest (name, fn')).
        apply list_elem_of_In. exact Hin'.
    + apply IH; assumption.
  - intros name Hinvalid. apply registrations_keep_other_names. exact Hinvalid.
Qed.

(** X6 at three entries, one valid, one under the empty name, one not
    callable, over a registry that already has the third name. *)
Lemma register_extension_registers_valid_entries_witness :
  (register_extension json_rejects (mkPage None None)
     [("open", Callable says_ok); ("", Callable says_ok);
      ("bad", NotCallable VNone)]
     (register_action "bad" (Callable (fails_with "old")) ∅)).1 !! "open"
  = Some says_ok
  /\ (register_extension json_rejects (mkPage None None)
        [("open", Callable says_ok); ("", Callable says_ok);
         ("bad", NotCallable VNone)]
        (register_action "bad" (Callable (fails_with "old")) ∅)).1 !! "bad"
     = register_action "bad" (Callable (fails_with "old")) ∅ !! "bad".
Proof.
  destruct (register_extension_registers_valid_entries json_rejects
              (mkPage None None)
              [("open", Callable says_ok); ("", Callable says_ok);
               ("bad", NotCallable VNone)]
              (register_action "bad" (Callable (fails_with "old")) ∅))
    as [Hvalid Hother].
  - cbn [map fst]. apply (bool_decide_unpack _). vm_compute. reflexivity.
  - split.
    + apply Hvalid; [apply list_elem_of_here | discriminate].
    + apply Hother. intros fn Hin.
      apply elem_of_cons in Hin as [Heq|Hin]; [discriminate Heq|].
      apply elem_of_cons in Hin as [Heq|Hin]; [discriminate Heq|].
      apply elem_of_cons in Hin as [Heq|Hin];
        [injection Heq as ->; reflexivity|].
      inversion Hin.
Defined.

(** X7: [register_extension] returns whatever the page does: an import that
    raises is printed and skipped; the handler is installed when the page
    has an [on_extension_event] attribute, wrapped around what that
    attribute held, and not otherwise. *)
Theorem register_extension_never_raises
    (json_loads : string -> option pyval) (page : Page)
    (actions : list (string * pyobj)) (reg : gmap string ActionCallback) :
  (register_extension json_loads page actions reg).2.2
  = Ok (_handle_ext json_loads <$> on_extension_event page)
  /\ printed (register_extension json_loads page actions reg).2.1
     = match import_extension page with
       | None => []
       | Some import =>
           Importing :: match import EXTENSION_NAME with
                        | Ok _ => []
                        | Raise e => [ImportFailed e]
                        end
       end.
Proof.
  unfold register_extension. cbn [snd].
  destruct (import_extension page) as [import|];
    [destruct (import EXTENSION_NAME) as [[]|e]|];
    destruct (on_extension_event page); split; reflexivity.
Qed.

(** ** The handler on its own events *)

Lemma handle_ext_own json_loads prev
    (reg : gmap string ActionCallback) evt :
  foreign evt = false ->
  hashable (lookup_key (event_action_name json_loads evt)) = true ->
  _handle_ext json_loads prev reg evt =
  own_event_run prev evt (lookup_key (event_action_name json_loads evt))
    (event_action_name json_loads evt) (event_payload json_loads evt)
    (registry_find reg (lookup_key (event_action_name json_loads evt))).
Proof.
  intros Hforeign Hkey. unfold _handle_ext, own_event_run.
  change (truthy (evt_extension_name evt)
          && differs_from_extension_name (evt_extension_name evt))
    with (foreign evt).
  rewrite Hforeign.
  change (py_or (event_action_name json_loads evt) (VStr ""))
    with (lookup_key (event_action_name json_loads evt)).
  assert (Hget : actions_get reg (lookup_key (event_action_name json_loads evt))
                 = ([Get (lookup_key (event_action_name json_loads evt))],
                    Ok (registry_find reg
                          (lookup_key (event_action_name json_loads evt))))).
  { destruct (lookup_key (event_action_name json_loads evt));
      try discriminate; reflexivity. }
  rewrite Hget, bind_ok.
  destruct (registry_find reg _) as [f|].
  - unfold call, try_except.
    destruct (f (event_payload json_loads evt)) as [[]|[e|code|]];
      destruct prev as [h|]; cbn; try destruct (h evt) as [[]|[e'|code'|]];
      reflexivity.
  - destruct prev as [h|]; cbn; try destruct (h evt) as [[]|[e'|code'|]];
      reflexivity.
Qed.

Lemma prev_calls_app tr1 tr2 :
  prev_calls (tr1 ++ tr2) = (prev_calls tr1 ++ prev_calls tr2)%list.
Proof.
  induction tr1 as [|[| | |] tr1 IH]; cbn; rewrite ?IH; reflexivity.
Qed.

(** X8: on an event it does not forward, whose action name can be a
    registry key, the handler invokes at most one callback.  It raises only
    what the callback or the previous handler raises outside [Exception],
    as [SystemExit] is: an exception of that kind from the callback ends
    the handler before the previous handler is called; in every other case,
    the callback returning or raising an exception deriving from
    [Exception], the previous handler, when there is a callable one, is
    called once with the event as it came, and the handler ends as that
    call ends behind [except Exception]. *)
Theorem own_event_raises_only_what_escapes
    (json_loads : string -> option pyval)
    (prev : option (ExtEvent -> effect unit))
    (reg : gmap string ActionCallback) (evt : ExtEvent) :
  foreign evt = false ->
  hashable (lookup_key (event_action_name json_loads evt)) = true ->
  (_handle_ext json_loads prev reg evt).2
  = match
      match registry_find reg (lookup_key (event_action_name json_loads evt)) with
      | Some f => behind_except (f (event_payload json_loads evt))
      | None => Ok tt
      end
    with
    | Ok _ => prev_outcome prev evt
    | Raise r => Raise r
    end
  /\ length (calls (_handle_ext json_loads prev reg evt).1) <= 1
  /\ prev_calls (_handle_ext json_loads prev reg evt).1
     = match prev with
       | Some _ =>
           if returned
                match registry_find reg
                        (lookup_key (event_action_name json_loads evt)) with
                | Some f => behind_except (f (event_payload json_loads evt))
                | None => Ok tt
                end
           then [evt] else []
       | None => []
       end.
Proof.
  intros Hforeign Hkey.
  rewrite (handle_ext_own json_loads prev reg evt Hforeign Hkey).
  unfold own_event_run.
  destruct (registry_find reg _) as [f|];
    [destruct (f (event_payload json_loads evt)) as [[]|[e|code|]]|];
    destruct prev; cbn; repeat split; lia.
Qed.

(** X8 at an event whose data is a JSON string naming a registered action
    that raises, with a previous handler that raises. *)
Lemma own_event_raises_only_what_escapes_witness :
  (_handle_ext json_one_message (Some (fun _ => Raise (Exc (UserError "prev"))))
     (register_action "hello" (Callable (fails_with "no")) ∅)
     (mkExtEvent (VStr "tray") VNone VNone (VStr hello_message))).2
  = Ok tt
  /\ length (calls
       (_handle_ext json_one_message
          (Some (fun _ => Raise (Exc (UserError "prev"))))
          (register_action "hello" (Callable (fails_with "no")) ∅)
          (mkExtEvent (VStr "tray") VNone VNone (VStr hello_message))).1) <= 1
  /\ prev_calls
       (_handle_ext json_one_message
          (Some (fun _ => Raise (Exc (UserError "prev"))))
          (register_action "hello" (Callable (fails_with "no")) ∅)
          (mkExtEvent (VStr "tray") VNone VNone (VStr hello_message))).1
     = [mkExtEvent (VStr "tray") VNone VNone (VStr hello_message)].
Proof.
  destruct (own_event_raises_only_what_escapes json_one_message
              (Some (fun _ => Raise (Exc (UserError "prev"))))
              (register_action "hello" (Callable (fails_with "no")) ∅)
              (mkExtEvent (VStr "tray") VNone VNone (VStr hello_message)))
    as (Hends & Hcalls & Hprev); [reflexivity..|].
  split; [exact Hends | split; [exact Hcalls | exact Hprev]].
Defined.

(** The handler on an exit action that ends the process: the exception
    leaves the handler and the previous handler is not called; and the
    handler of a second bridge on the same page, which has the first
    bridge's handler for previous handler, ends with that exception too. *)
Example exit_action_skips_previous_handler :
  _handle_ext json_rejects (Some (fun _ => Ok tt))
    (register_action "exit" (Callable exits) ∅)
    (mkExtEvent (VStr "tray") (VStr "exit") VNone VNone)
  = ([Get (VStr "exit"); Call exits VNone], Raise (SystemExit (VInt 0)))
  /\ _handle_ext json_rejects
       (Some (fun evt =>
                (_handle_ext json_rejects None
                   (register_action "exit" (Callable exits) ∅) evt).2))
       ∅ (mkExtEvent (VStr "tray") (VStr "exit") VNone VNone)
     = ([Get (VStr "exit");
         CallPrev (mkExtEvent (VStr "tray") (VStr "exit") VNone VNone)],
        Raise (SystemExit (VInt 0))).
Proof. split; reflexivity. Qed.

(** X9: on an event it does not forward, whose action name is a non-empty
    list or dict, the handler raises at the registry lookup: no callback is
    invoked and the previous handler is not called. *)
Theorem unhashable_action_name_raises
    (json_loads : string -> option pyval)
    (prev : option (ExtEvent -> effect unit))
    (reg : gmap string ActionCallback) (evt : ExtEvent) :
  foreign evt = false ->
  truthy (event_action_name json_loads evt) = true ->
  hashable (event_action_name json_loads evt) = false ->
  exists msg,
    _handle_ext json_loads prev reg evt
    = ([Get (event_action_name json_loads evt)], Raise (Exc (TypeError msg))).
Proof.
  intros Hforeign Htruthy Hkey. unfold _handle_ext.
  change (truthy (evt_extension_name evt)
          && differs_from_extension_name (evt_extension_name evt))
    with (foreign evt).
  rewrite Hforeign. unfold py_or at 1. rewrite Htruthy.
  destruct (event_action_name json_loads evt); try discriminate;
    eexists; reflexivity.
Qed.

(** X9 at an event whose data holds a list under [action]. *)
Lemma unhashable_action_name_raises_witness :
  exists msg,
    _handle_ext json_rejects (Some (fun _ => Ok tt)) ∅
      (mkExtEvent VNone VNone VNone (VDict [("action", VList [VStr "open"])]))
    = ([Get (event_action_name json_rejects
               (mkExtEvent VNone VNone VNone
                  (VDict [("action", VList [VStr "open"])])))],
       Raise (Exc (TypeError msg))).
Proof.
  apply (unhashable_action_name_raises json_rejects (Some (fun _ => Ok tt)) ∅
           (mkExtEvent VNone VNone VNone (VDict [("action", VList [VStr "open"])])));
    reflexivity.
Defined.

(** X10: an event that names its action in the attribute [name] is
    dispatched under that name whatever its data says: the callback
    registered under the name, if any, is invoked once with the decoded
    data, and an [action] entry in the data is not looked at. *)
Theorem event_name_attribute_wins
    (json_loads : string -> option pyval)
    (prev : option (ExtEvent -> effect unit))
    (reg : gmap string ActionCallback) (evt : ExtEvent) (name : string) :
  foreign evt = false ->
  evt_name evt = VStr name -> name <> "" ->
  event_action_name json_loads evt = VStr name
  /\ calls (_handle_ext json_loads prev reg evt).1
     = match reg !! name with
       | Some f => [(f, event_payload json_loads evt)]
       | None => []
       end.
Proof.
  intros Hforeign Hname Hnonempty.
  assert (Htruthy : truthy (VStr name) = true).
  { cbn. destruct (String.eqb_spec name ""); [contradiction | reflexivity]. }
  assert (Hresolved : event_action_name json_loads evt = VStr name).
  { unfold event_action_name, py_or. rewrite Hname, Htruthy.
    destruct (event_payload json_loads evt); rewrite ?Htruthy; reflexivity. }
  split; [exact Hresolved|].
  rewrite (handle_ext_dispatch _ _ _ _ name Hforeign Hresolved).
  unfold own_event_run.
  destruct (reg !! name) as [f|];
    [destruct (f (event_payload json_loads evt)) as [[]|[e|code|]]|];
    destruct prev; reflexivity.
Qed.

(** X10 at an event named [open] whose JSON data names [hello]. *)
Lemma event_name_attribute_wins_witness :
  event_action_name json_one_message
    (mkExtEvent VNone (VStr "open") VNone (VStr hello_message)) = VStr "open"
  /\ calls (_handle_ext json_one_message None
              (register_action "hello" (Callable says_ok) ∅)
              (mkExtEvent VNone (VStr "open") VNone (VStr hello_message))).1
     = match register_action "hello" (Callable says_ok) ∅ !! "open" with
       | Some f =>
           [(f, event_payload json_one_message
                  (mkExtEvent VNone (VStr "open") VNone (VStr hello_message)))]
       | None => []
       end.
Proof.
  apply (event_name_attribute_wins json_one_message None
           (register_action "hello" (Callable says_ok) ∅)
           (mkExtEvent VNone (VStr "open") VNone (VStr hello_message)) "open");
    [reflexivity | reflexivity | discriminate].
Defined.

(** ** The shape of the built menu *)

Lemma mirrors_eq reg node item :
  mirrors reg node item =
  (item_label item = text node
   /\ item_enabled item = negb (disabled node)
   /\ item_default item = false
   /\ match item with
      | Item _ fn name _ _ _ =>
          children node = [] /\ name = action node
          /\ fn = registry_find reg (lookup_key (action node))
      | SubmenuItem _ submenu _ _ =>
          children node <> [] /\ all_mirror reg (children node) submenu
      end).
Proof. destruct item; reflexivity. Qed.

Lemma actions_get_find reg key tr fn :
  actions_get reg key = (tr, Ok fn) -> fn = registry_find reg key.
Proof.
  destruct key; cbn; intros H; try discriminate; injection H as _ <-; reflexivity.
Qed.

Lemma for_each_mirror reg loop_end nodes :
  Forall (fun node => forall le tr item,
            build_item reg le node = (tr, Ok item) -> mirrors reg node item) nodes ->
  forall tr items,
    for_each (build_item reg loop_end) nodes = (tr, Ok items) ->
    all_mirror reg nodes items.
Proof.
  induction nodes as [|node nodes IH]; intros HP tr items H.
  - cbn in H. injection H as _ <-. exact I.
  - cbn [for_each] in H.
    apply bind_ok_inv in H as (tr1 & item & tr' & Hitem & H & _).
    apply bind_ok_inv in H as (tr2 & rest & tr3 & Hrest & H & _).
    cbn in H. injection H as _ <-.
    change (mirrors reg node item /\ all_mirror reg nodes rest). split.
    + exact (Forall_inv HP _ _ _ Hitem).
    + exact (IH (Forall_inv_tail HP) _ _ Hrest).
Qed.

Lemma build_item_mirrors reg node :
  forall le tr item, build_item reg le node = (tr, Ok item) -> mirrors reg node item.
Proof.
  induction node as [node IH] using MenuNode_tree_ind.
  intros le tr item H. rewrite build_item_eq in H. rewrite mirrors_eq.
  destruct (children node) as [|kid kids] eqn:Hkids.
  - apply bind_ok_inv in H as (tr1 & fn & tr2 & Hget & H & _).
    cbn in H. injection H as _ <-. cbn.
    apply actions_get_find in Hget. auto 10.
  - apply bind_ok_inv in H as (tr1 & items & tr' & Hitems & H & _).
    apply bind_ok_inv in H as (tr2 & submenu & tr3 & Hfinish & H & _).
    cbn in H. injection H as _ <-.
    apply finish_menu_ok in Hfinish as (-> & _ & _). cbn.
    repeat split; [discriminate|].
    exact (for_each_mirror reg _ _ IH _ _ Hitems).
Qed.

(** X11: a menu the builder returns has the shape of the node tree: item
    by item and in order, at every depth, the node's label, enabled unless
    the node is disabled, never the default item; a node without children
    gives an item bound to the node's action and to the callback the
    registry held under it when the menu was built, a node with children a
    submenu of its children. *)
Theorem built_menu_mirrors_nodes
    (reg : gmap string ActionCallback) (nodes : list MenuNode)
    (tr : list event) (menu : list MenuItem) :
  _build_pystray_menu reg nodes = (tr, Ok menu) ->
  all_mirror reg nodes menu.
Proof.
  intros H. unfold _build_pystray_menu in H.
  apply bind_ok_inv in H as (tr1 & items & tr2 & Hitems & Hfinish & _).
  apply finish_menu_ok in Hfinish as (-> & _ & _).
  apply (for_each_mirror reg (last nodes) nodes) with (tr := tr1);
    [|exact Hitems].
  apply Forall_forall. intros node _. apply build_item_mirrors.
Qed.

(** X11 at a two-level menu, with the action of the nested leaf
    registered. *)
Lemma built_menu_mirrors_nodes_witness :
  all_mirror (register_action "exit" (Callable says_ok) ∅) tools_menu
    [SubmenuItem (VStr "Tools")
       [Item (VStr "Quit") (Some says_ok) (VStr "exit") true
          (Some (CheckedOf (mkMenuNode (VStr "Quit") (VStr "exit") false true [] VNone)))
          false]
       true false;
     Item (VStr "Open") None VNone false None false].
Proof.
  apply (built_menu_mirrors_nodes (register_action "exit" (Callable says_ok) ∅)
           tools_menu
           [Get (VStr "exit"); Print (PystrayMenuItems [VStr "Quit"]);
            Get (VStr ""); Print (PystrayMenuItems [VStr "Tools"; VStr "Open"])]).
  vm_compute. reflexivity.
Defined.

(** ** When the builder returns *)

Lemma bind_returned {A B : Type} (m : M A) (k : A -> M B) :
  returned (bind m k).2
  = match m.2 with
    | Ok a => returned (k a).2
    | Raise _ => false
    end.
Proof.
  destruct m as [tr [a|e]]; cbn; [|reflexivity]. destruct (k a). reflexivity.
Qed.

Lemma for_each_returned {A B : Type} (f : A -> M B) xs :
  returned (for_each f xs).2 = forallb (fun x => returned (f x).2) xs.
Proof.
  induction xs as [|x xs IH]; [reflexivity|].
  cbn [for_each forallb]. rewrite bind_returned.
  destruct (f x) as [tr [y|e]]; cbn [snd returned andb]; [|reflexivity].
  rewrite bind_returned.
  destruct (for_each f xs) as [tr' [ys|e]]; cbn [snd returned] in *;
    rewrite <- IH; reflexivity.
Qed.

Lemma forallb_flat_map {A B : Type} (p : B -> bool) (f : A -> list B) xs :
  forallb p (flat_map f xs) = forallb (fun x => forallb p (f x)) xs.
Proof.
  induction xs as [|x xs IH]; [reflexivity|].
  cbn [flat_map forallb]. rewrite forallb_app, IH. reflexivity.
Qed.

Lemma forallb_Forall_ext {A : Type} (p q : A -> bool) xs :
  Forall (fun x => p x = q x) xs -> forallb p xs = forallb q xs.
Proof.
  induction 1 as [|x xs Hx _ IH]; [reflexivity|].
  cbn [forallb]. rewrite Hx, IH. reflexivity.
Qed.

Lemma finish_menu_returned labels items :
  returned (finish_menu labels items).2 = true.
Proof. destruct items; reflexivity. Qed.

Lemma actions_get_returned reg key :
  returned (actions_get reg key).2 = hashable key.
Proof. destruct key; reflexivity. Qed.

Lemma build_item_returned reg node :
  forall le,
    returned (build_item reg le node).2
    = forallb lookup_key_hashable_b (leaf_action node).
Proof.
  induction node as [node IH] using MenuNode_tree_ind.
  intros le. rewrite build_item_eq.
  destruct node as [t a dis chk kids ic].
  cbn [text action disabled checked children icon] in *.
  destruct kids as [|kid kids].
  - rewrite bind_returned.
    change (forallb _ _) with (hashable (lookup_key a) && true).
    rewrite andb_true_r, <- (actions_get_returned reg).
    destruct (actions_get reg (lookup_key a)) as [tr [fn|e]]; reflexivity.
  - change (leaf_action _) with (flat_map leaf_action (kid :: kids)).
    rewrite forallb_flat_map, bind_returned.
    pose proof (for_each_returned (build_item reg (last (kid :: kids)))
                  (kid :: kids)) as Hloop.
    rewrite (forallb_Forall_ext _ (fun x => forallb lookup_key_hashable_b
                                               (leaf_action x))) in Hloop.
    + destruct (for_each _ (kid :: kids)) as [tr [items|e]];
        cbn [snd returned] in *; rewrite <- Hloop; [|reflexivity].
      rewrite bind_returned.
      pose proof (finish_menu_returned (map text (kid :: kids)) items) as Hfin.
      destruct (finish_menu _ items) as [tr' [submenu|e]];
        cbn [snd returned] in *; [reflexivity | discriminate].
    + eapply Forall_impl; [exact IH|]. intros x Hx. apply Hx.
Qed.

(** X12: the builder returns a menu exactly when the registry key of every
    node without children, [node.action or ""], can be looked up, that is
    when no such action is a non-empty list or dict; otherwise it raises,
    under any registry. *)
Theorem build_returns_iff_keys_hashable
    (reg : gmap string ActionCallback) (nodes : list MenuNode) :
  returned (_build_pystray_menu reg nodes).2
  = forallb lookup_key_hashable_b (leaf_actions nodes).
Proof.
  unfold _build_pystray_menu, leaf_actions.
  rewrite forallb_flat_map, bind_returned.
  pose proof (for_each_returned (build_item reg (last nodes)) nodes) as Hloop.
  rewrite (forallb_Forall_ext _ (fun x => forallb lookup_key_hashable_b
                                             (leaf_action x))) in Hloop.
  - destruct (for_each _ nodes) as [tr [items|e]];
      cbn [snd returned] in *; rewrite <- Hloop; [|reflexivity].
    apply finish_menu_returned.
  - apply Forall_forall. intros node _. apply build_item_returned.
Qed.

(** ** The checked state of built items *)

Lemma for_each_checked reg loop_end nodes :
  forall tr items,
    for_each (build_item reg loop_end) nodes = (tr, Ok items) ->
    Forall2 (fun node item =>
               checked_state item
               = match children node with
                 | [] => if checked node then checked <$> loop_end else None
                 | _ :: _ => None
                 end) nodes items.
Proof.
  induction nodes as [|node nodes IH]; intros tr items H.
  - cbn in H. injection H as _ <-. constructor.
  - cbn [for_each] in H.
    apply bind_ok_inv in H as (tr1 & item & tr' & Hitem & H & _).
    apply bind_ok_inv in H as (tr2 & rest & tr3 & Hrest & H & _).
    cbn in H. injection H as _ <-. constructor; [|exact (IH _ _ Hrest)].
    destruct (children node) as [|kid kids] eqn:Hkids.
    + exact (leaf_checked_state reg loop_end node tr1 item Hkids Hitem).
    + rewrite build_item_eq, Hkids in Hitem.
      apply bind_ok_inv in Hitem as (? & ? & ? & _ & Hitem & _).
      apply bind_ok_inv in Hitem as (? & ? & ? & _ & Hitem & _).
      cbn in Hitem. injection Hitem as _ <-. reflexivity.
Qed.

(** X13: in a menu the builder returns, an item has a checked state only
    when its node has no children and is checked, and the state it then
    reports is the [checked] attribute of the last node of the list the
    menu was built from; an unchecked node and a node with children give an
    item with no checked state. *)
Theorem checked_states_of_built_menu
    (reg : gmap string ActionCallback) (nodes : list MenuNode)
    (tr : list event) (menu : list MenuItem) :
  _build_pystray_menu reg nodes = (tr, Ok menu) ->
  Forall2 (fun node item =>
             checked_state item
             = match children node with
               | [] => if checked node then checked <$> last nodes else None
               | _ :: _ => None
               end) nodes menu.
Proof.
  intros H. unfold _build_pystray_menu in H.
  apply bind_ok_inv in H as (tr1 & items & tr2 & Hitems & Hfinish & _).
  apply finish_menu_ok in Hfinish as (-> & _ & _).
  exact (for_each_checked reg (last nodes) nodes _ _ Hitems).
Qed.

(** X13 at a checked leaf followed by an unchecked one and at a checked
    leaf alone. *)
Lemma checked_states_of_built_menu_witness :
  Forall2 (fun node item =>
             checked_state item
             = match children node with
               | [] => if checked node
                       then checked <$> last checked_then_unchecked else None
               | _ :: _ => None
               end) checked_then_unchecked
    [Item (VStr "A") None VNone true
       (Some (CheckedOf (mkMenuNode (VStr "B") VNone false false [] VNone))) false;
     Item (VStr "B") None VNone true None false].
Proof.
  apply (checked_states_of_built_menu ∅ checked_then_unchecked
           [Get (VStr ""); Get (VStr "");
            Print (PystrayMenuItems [VStr "A"; VStr "B"])]).
  vm_compute. reflexivity.
Defined.

(** ** Constructing the tray session *)

(** X14: a construction whose menu is not well formed raises before it
    touches anything: the registry is as it was and nothing is printed. *)
Theorem malformed_menu_aborts_construction
    (Image Icon : Type)
    (Image_open : string -> outcome Image)
    (Image_new : Z * Z -> Z * Z * Z -> Image)
    (pystray_Icon : string -> Image -> string -> list MenuItem -> outcome Icon)
    (self : TrayApp.ref) (name title : string) (icon_path : option string)
    (on_open on_exit : TrayApp.TrayCallback) (menu : pyval)
    (fallback_color : Z * Z * Z) (reg : gmap string ActionCallback) :
  well_formed_menu (py_or menu (VList [])) = false ->
  exists e,
    TrayApp.__init__ Image Icon Image_open Image_new pystray_Icon self name title
      icon_path on_open on_exit menu fallback_color reg
    = (reg, ([], Raise (Exc e))).
Proof.
  intros Hwf. rewrite well_formed_returned in Hwf. unfold TrayApp.__init__.
  destruct (_normalise_menu (py_or menu (VList []))) as [nodes|e];
    [discriminate|].
  exists e. reflexivity.
Qed.

(** X14 at a menu whose second record is a string. *)
Lemma malformed_menu_aborts_construction_witness :
  exists e,
    TrayApp.__init__ unit (list MenuItem) no_image blank_image icon_of_menu 1
      "demo" "Demo" None (fun _ => Ok tt) (fun _ => Ok tt)
      (VList [VDict [("text", VStr "Open")]; VStr "Exit"]) (128, 128, 128)%Z
      (register_action "open" (Callable (fails_with "old")) ∅)
    = (register_action "open" (Callable (fails_with "old")) ∅,
       ([], Raise (Exc e))).
Proof.
  apply (malformed_menu_aborts_construction unit (list MenuItem) no_image
           blank_image icon_of_menu 1 "demo" "Demo" None (fun _ => Ok tt)
           (fun _ => Ok tt) (VList [VDict [("text", VStr "Open")]; VStr "Exit"])
           (128, 128, 128)%Z
           (register_action "open" (Callable (fails_with "old")) ∅)).
  reflexivity.
Defined.

(** The builder raises nothing but exceptions deriving from [Exception]. *)
Lemma bind_raise_inv {A B : Type} (m : M A) (k : A -> M B) tr r :
  bind m k = (tr, Raise r) ->
  m = (tr, Raise r)
  \/ exists tr1 a tr2, m = (tr1, Ok a) /\ k a = (tr2, Raise r).
Proof.
  destruct m as [tr1 [a|e]]; cbn.
  - destruct (k a) as [tr2 r'] eqn:Hk. intros H. injection H as <- ->.
    right. exists tr1, a, tr2. auto.
  - intros H. injection H as <- <-. left. reflexivity.
Qed.

Lemma for_each_raises {A B : Type} (f : A -> M B) (P : raised -> Prop) xs :
  Forall (fun x => forall tr r, f x = (tr, Raise r) -> P r) xs ->
  forall tr r, for_each f xs = (tr, Raise r) -> P r.
Proof.
  induction 1 as [|x xs Hx _ IH]; intros tr r H; [discriminate|].
  cbn [for_each] in H.
  apply bind_raise_inv in H as [H|(tr1 & y & tr2 & _ & H)]; [exact (Hx _ _ H)|].
  apply bind_raise_inv in H as [H|(tr3 & ys & tr4 & _ & H)]; [exact (IH _ _ H)|].
  discriminate.
Qed.

Lemma finish_menu_never_raises labels items tr r :
  finish_menu labels items = (tr, Raise r) -> False.
Proof. destruct items; discriminate. Qed.

Lemma build_item_raises reg node :
  forall le tr r, build_item reg le node = (tr, Raise r) -> exists e, r = Exc e.
Proof.
  induction node as [node IH] using MenuNode_tree_ind.
  intros le tr r H. rewrite build_item_eq in H.
  destruct (children node) as [|kid kids] eqn:Hkids.
  - apply bind_raise_inv in H as [H|(tr1 & fn & tr2 & _ & H)]; [|discriminate].
    destruct (lookup_key (action node)); cbn in H; try discriminate;
      injection H as _ <-; eauto.
  - apply bind_raise_inv in H as [H|(tr1 & items & tr2 & _ & H)].
    + apply (for_each_raises _ (fun r => exists e, r = Exc e)) in H;
        [exact H|].
      eapply Forall_impl; [exact IH|]. intros x Hx tr0 r0. apply Hx.
    + apply bind_raise_inv in H as [H|(tr3 & submenu & tr4 & _ & H)];
        [|discriminate].
      destruct (finish_menu_never_raises _ _ _ _ H).
Qed.

Lemma build_raises reg nodes tr r :
  _build_pystray_menu reg nodes = (tr, Raise r) -> exists e, r = Exc e.
Proof.
  unfold _build_pystray_menu. intros H.
  apply bind_raise_inv in H as [H|(tr1 & items & tr2 & _ & H)].
  - apply (for_each_raises _ (fun r => exists e, r = Exc e) nodes) in H;
      [exact H|].
    apply Forall_forall. intros node _. apply build_item_raises.
  - destruct (finish_menu_never_raises _ _ _ _ H).
Qed.

(** X15: once the menu has normalised, the callbacks for [open] and [exit]
    are registered whether or not the construction then succeeds; and when
    it fails, in the builder or in the native icon, the exception derives
    from [Exception], the failure is printed last and the same exception is
    raised again. *)
Theorem failed_construction_logs_and_reraises
    (Image Icon : Type)
    (Image_open : string -> outcome Image)
    (Image_new : Z * Z -> Z * Z * Z -> Image)
    (pystray_Icon : string -> Image -> string -> list MenuItem -> outcome Icon)
    (self : TrayApp.ref) (name title : string) (icon_path : option string)
    (on_open on_exit : TrayApp.TrayCallback) (menu : pyval)
    (fallback_color : Z * Z * Z) (reg : gmap string ActionCallback)
    (nodes : list MenuNode) :
  _normalise_menu (py_or menu (VList [])) = Ok nodes ->
  (TrayApp.__init__ Image Icon Image_open Image_new pystray_Icon self name title
     icon_path on_open on_exit menu fallback_color reg).1 !! "open"
  = Some (fun _ => on_open self)
  /\ (TrayApp.__init__ Image Icon Image_open Image_new pystray_Icon self name title
        icon_path on_open on_exit menu fallback_color reg).1 !! "exit"
     = Some (fun _ => on_exit self)
  /\ (forall tr r,
        (TrayApp.__init__ Image Icon Image_open Image_new pystray_Icon self name
           title icon_path on_open on_exit menu fallback_color reg).2
        = (tr, Raise r) ->
        exists e before,
          r = Exc e /\ tr = (before ++ [Print (IconFailed e)])%list).
Proof.
  intros Hnorm.
  rewrite (init_after_normalise Image Icon Image_open Image_new pystray_Icon self
             name title icon_path on_open on_exit menu fallback_color reg nodes
             Hnorm).
  cbn zeta. cbn [fst snd]. split; [|split].
  - rewrite register_action_other by discriminate.
    apply register_action_lookup. discriminate.
  - apply register_action_lookup. discriminate.
  - intros tr r H.
    destruct (_build_pystray_menu _ _) as [tr' [built|r']] eqn:Hbuilt.
    + destruct (pystray_Icon _ _ _ _) as [native|e]; [discriminate|].
      injection H as <- <-. exists e.
      exists ([Print (MenuNodes (map text
                 match nodes with [] => TrayApp.default_menu_nodes | _ :: _ => nodes end));
               Print (BuildingMenu (dom
                 (register_action "exit" (Callable (fun _ => on_exit self))
                    (register_action "open" (Callable (fun _ => on_open self)) reg))))]
              ++ tr')%list.
      split; [reflexivity|]. rewrite <- app_assoc. reflexivity.
    + destruct (build_raises _ _ _ _ Hbuilt) as [e ->].
      injection H as <- <-. exists e.
      exists ([Print (MenuNodes (map text
                 match nodes with [] => TrayApp.default_menu_nodes | _ :: _ => nodes end));
               Print (BuildingMenu (dom
                 (register_action "exit" (Callable (fun _ => on_exit self))
                    (register_action "open" (Callable (fun _ => on_open self)) reg))))]
              ++ tr')%list.
      split; [reflexivity|]. rewrite <- app_assoc. reflexivity.
Qed.

(** X15 at a construction without menu on a system without tray. *)
Lemma failed_construction_logs_and_reraises_witness :
  (TrayApp.__init__ unit (list MenuItem) no_image blank_image no_tray 1
     "demo" "Demo" None (fun _ => Ok tt) (fun _ => Raise (Exc (UserError "bye")))
     VNone (128, 128, 128)%Z ∅).1 !! "open"
  = Some (fun _ => Ok tt)
  /\ (TrayApp.__init__ unit (list MenuItem) no_image blank_image no_tray 1
        "demo" "Demo" None (fun _ => Ok tt) (fun _ => Raise (Exc (UserError "bye")))
        VNone (128, 128, 128)%Z ∅).1 !! "exit"
     = Some (fun _ => Raise (Exc (UserError "bye")))
  /\ (forall tr r,
        (TrayApp.__init__ unit (list MenuItem) no_image blank_image no_tray 1
           "demo" "Demo" None (fun _ => Ok tt)
           (fun _ => Raise (Exc (UserError "bye"))) VNone (128, 128, 128)%Z ∅).2
        = (tr, Raise r) ->
        exists e before,
          r = Exc e /\ tr = (before ++ [Print (IconFailed e)])%list).
Proof.
  apply (failed_construction_logs_and_reraises unit (list MenuItem) no_image
           blank_image no_tray 1 "demo" "Demo" None (fun _ => Ok tt)
           (fun _ => Raise (Exc (UserError "bye"))) VNone (128, 128, 128)%Z ∅ []).
  reflexivity.
Defined.

(** X16: in a construction that succeeds, the tray's menu is the caller's
    normalised menu when that has a node and the default menu otherwise;
    the native icon is created from the menu built from those nodes under
    the registry that already holds the callbacks for [open] and [exit],
    with the image [_load_icon] gives. *)
Theorem native_icon_gets_built_menu
    (Image Icon : Type)
    (Image_open : string -> outcome Image)
    (Image_new : Z * Z -> Z * Z * Z -> Image)
    (pystray_Icon : string -> Image -> string -> list MenuItem -> outcome Icon)
    (self : TrayApp.ref) (name title : string) (icon_path : option string)
    (on_open on_exit : TrayApp.TrayCallback) (menu : pyval)
    (fallback_color : Z * Z * Z)
    (reg reg' : gmap string ActionCallback) (tr : list event)
    (app : TrayApp.t Icon) :
  TrayApp.__init__ Image Icon Image_open Image_new pystray_Icon self name title
    icon_path on_open on_exit menu fallback_color reg = (reg', (tr, Ok app)) ->
  exists nodes tr' built,
    _normalise_menu (py_or menu (VList [])) = Ok nodes
    /\ TrayApp._menu_nodes Icon app
       = match nodes with [] => TrayApp.default_menu_nodes | _ :: _ => nodes end
    /\ _build_pystray_menu reg' (TrayApp._menu_nodes Icon app) = (tr', Ok built)
    /\ pystray_Icon name
         (TrayApp._load_icon Image Image_open Image_new icon_path fallback_color)
         title built
       = Ok (TrayApp.icon Icon app).
Proof.
  intros H.
  destruct (_normalise_menu (py_or menu (VList []))) as [nodes|e] eqn:Hnorm.
  - rewrite (init_after_normalise Image Icon Image_open Image_new pystray_Icon
               self name title icon_path on_open on_exit menu fallback_color reg
               nodes Hnorm) in H.
    cbn zeta in H. injection H as <- H.
    destruct (_build_pystray_menu _ _) as [tr' [built|[e|code|]]] eqn:Hbuilt;
      [|discriminate..].
    destruct (pystray_Icon _ _ _ built) as [native|e] eqn:Hnative;
      [|discriminate].
    injection H as _ <-. exists nodes, tr', built. cbn.
    repeat split; assumption.
  - unfold TrayApp.__init__ in H. rewrite Hnorm in H. discriminate.
Qed.

(** X16 at a construction with a one-record menu. *)
Lemma native_icon_gets_built_menu_witness :
  exists nodes tr' built,
    _normalise_menu (py_or (VList [VDict [("label", VStr "Quit"); ("action", VStr "exit")]])
                       (VList [])) = Ok nodes
    /\ TrayApp._menu_nodes (list MenuItem)
         (TrayApp.mk (list MenuItem) None (fun _ => Ok tt) (fun _ => Ok tt)
            (128, 128, 128)%Z
            [mkMenuNode (VStr "Quit") (VStr "exit") false false [] VNone]
            [Item (VStr "Quit") (Some (fun _ => Ok tt)) (VStr "exit") true None false])
       = match nodes with [] => TrayApp.default_menu_nodes | _ :: _ => nodes end
    /\ _build_pystray_menu
         (register_action "exit" (Callable (fun _ => Ok tt))
            (register_action "open" (Callable (fun _ => Ok tt)) ∅))
         (TrayApp._menu_nodes (list MenuItem)
            (TrayApp.mk (list MenuItem) None (fun _ => Ok tt) (fun _ => Ok tt)
               (128, 128, 128)%Z
               [mkMenuNode (VStr "Quit") (VStr "exit") false false [] VNone]
               [Item (VStr "Quit") (Some (fun _ => Ok tt)) (VStr "exit") true None false]))
       = (tr', Ok built)
    /\ icon_of_menu "demo"
         (TrayApp._load_icon unit no_image blank_image None (128, 128, 128)%Z)
         "Demo" built
       = Ok (TrayApp.icon (list MenuItem)
               (TrayApp.mk (list MenuItem) None (fun _ => Ok tt) (fun _ => Ok tt)
                  (128, 128, 128)%Z
                  [mkMenuNode (VStr "Quit") (VStr "exit") false false [] VNone]
                  [Item (VStr "Quit") (Some (fun _ => Ok tt)) (VStr "exit") true
                     None false])).
Proof.
  apply (native_icon_gets_built_menu unit (list MenuItem) no_image blank_image
           icon_of_menu 1 "demo" "Demo" None (fun _ => Ok tt) (fun _ => Ok tt)
           (VList [VDict [("label", VStr "Quit"); ("action", VStr "exit")]])
           (128, 128, 128)%Z ∅
           (register_action "exit" (Callable (fun _ => Ok tt))
              (register_action "open" (Callable (fun _ => Ok tt)) ∅))
           [Print (MenuNodes [VStr "Quit"]);
            Print (BuildingMenu
                     (dom (register_action "exit" (Callable (fun _ => Ok tt))
                             (register_action "open" (Callable (fun _ => Ok tt)) ∅))));
            Get (VStr "exit"); Print (PystrayMenuItems [VStr "Quit"])]).
  vm_compute. reflexivity.
Defined.

(** X17: a construction without menu that succeeds hands the native library
    the two items [Open] and [Exit], both enabled, bound to the callbacks
    that call [on_open] and [on_exit] on the tray object, whatever was
    registered under [open] and [exit] before. *)
Theorem default_menu_is_wired_to_constructor_callbacks
    (Image Icon : Type)
    (Image_open : string -> outcome Image)
    (Image_new : Z * Z -> Z * Z * Z -> Image)
    (pystray_Icon : string -> Image -> string -> list MenuItem -> outcome Icon)
    (self : TrayApp.ref) (name title : string) (icon_path : option string)
    (on_open on_exit : TrayApp.TrayCallback) (menu : pyval)
    (fallback_color : Z * Z * Z)
    (reg reg' : gmap string ActionCallback) (tr : list event)
    (app : TrayApp.t Icon) :
  truthy menu = false ->
  TrayApp.__init__ Image Icon Image_open Image_new pystray_Icon self name title
    icon_path on_open on_exit menu fallback_color reg = (reg', (tr, Ok app)) ->
  pystray_Icon name
    (TrayApp._load_icon Image Image_open Image_new icon_path fallback_color) title
    [Item (VStr "Open") (Some (fun _ => on_open self)) (VStr "open") true None false;
     Item (VStr "Exit") (Some (fun _ => on_exit self)) (VStr "exit") true None false]
  = Ok (TrayApp.icon Icon app).
Proof.
  intros Hfalsy H.
  assert (Hnorm : _normalise_menu (py_or menu (VList [])) = Ok [])
    by (unfold py_or; rewrite Hfalsy; reflexivity).
  rewrite (init_after_normalise Image Icon Image_open Image_new pystray_Icon
             self name title icon_path on_open on_exit menu fallback_color reg
             [] Hnorm) in H.
  cbn beta iota zeta in H. injection H as <- H.
  rewrite (register_action_other "exit" _ "open") in H by discriminate.
  rewrite !register_action_lookup in H by discriminate.
  destruct (pystray_Icon _ _ _ _) as [native|e]; [|discriminate].
  injection H as _ <-. reflexivity.
Qed.

(** X17 at a construction over a registry that had other callbacks under
    both names. *)
Lemma default_menu_is_wired_to_constructor_callbacks_witness :
  icon_of_menu "demo"
    (TrayApp._load_icon unit no_image blank_image None (128, 128, 128)%Z) "Demo"
    [Item (VStr "Open") (Some (fun _ => Ok tt)) (VStr "open") true None false;
     Item (VStr "Exit") (Some (fun _ => Raise (Exc (UserError "bye")))) (VStr "exit")
       true None false]
  = Ok (TrayApp.icon (list MenuItem)
          (TrayApp.mk (list MenuItem) None (fun _ => Ok tt)
             (fun _ => Raise (Exc (UserError "bye"))) (128, 128, 128)%Z
             TrayApp.default_menu_nodes
             [Item (VStr "Open") (Some (fun _ => Ok tt)) (VStr "open") true None false;
              Item (VStr "Exit") (Some (fun _ => Raise (Exc (UserError "bye"))))
                (VStr "exit") true None false])).
Proof.
  apply (default_menu_is_wired_to_constructor_callbacks unit (list MenuItem)
           no_image blank_image icon_of_menu 1 "demo" "Demo" None
           (fun _ => Ok tt) (fun _ => Raise (Exc (UserError "bye"))) (VList [])
           (128, 128, 128)%Z
           (register_action "exit" (Callable (fails_with "old"))
              (register_action "open" (Callable (fails_with "old")) ∅))
           (register_action "exit" (Callable (fun _ => Raise (Exc (UserError "bye"))))
              (register_action "open" (Callable (fun _ => Ok tt))
                 (register_action "exit" (Callable (fails_with "old"))
                    (register_action "open" (Callable (fails_with "old")) ∅))))
           [Print (MenuNodes [VStr "Open"; VStr "Exit"]);
            Print (BuildingMenu
                     (dom (register_action "exit"
                             (Callable (fun _ => Raise (Exc (UserError "bye"))))
                             (register_action "open" (Callable (fun _ => Ok tt))
                                (register_action "exit" (Callable (fails_with "old"))
                                   (register_action "open"
                                      (Callable (fails_with "old")) ∅))))));
            Get (VStr "open"); Get (VStr "exit");
            Print (PystrayMenuItems [VStr "Open"; VStr "Exit"])]);
    [reflexivity | vm_compute; reflexivity].
Defined.

(** ** Starting the tray session *)

(** X18: [start] raises only when it is asked to block on macOS, and then
    what the native [run] raises; in every other case it returns, whatever
    [run_detached] and the visibility assignment do; the body of the
    background thread returns as well. *)
Theorem start_raises_only_when_blocking
    (icon : TrayAppLifecycle.native) (mac block : bool) :
  (TrayAppLifecycle.start icon mac block).2
  = (if mac && block then TrayAppLifecycle.run icon else Ok tt)
  /\ (TrayAppLifecycle._run icon).2 = Ok tt.
Proof.
  unfold TrayAppLifecycle.start, TrayAppLifecycle._run. split.
  - destruct mac, block; cbn [andb]; try reflexivity;
      destruct (TrayAppLifecycle.run_detached icon) as [[[]|e]|]; reflexivity.
  - destruct (TrayAppLifecycle.run icon); reflexivity.
Qed.

(** X19: the three ways of starting exclude one another. The calling
    thread runs the native loop itself exactly when [mac] and [block] are
    set; [run_detached] is tried exactly on macOS without [block] when the
    icon has it; the background thread is started exactly when the loop was
    not run on the calling thread and no [run_detached] succeeded; and the
    visibility is set exactly when the thread is started. Off macOS,
    [block] changes nothing. *)
Theorem start_strategies_exclude_one_another
    (icon : TrayAppLifecycle.native) (mac block : bool) :
  TrayAppLifecycle.ran (TrayAppLifecycle.start icon mac block).1 = mac && block
  /\ TrayAppLifecycle.detached_tried (TrayAppLifecycle.start icon mac block).1
     = mac && negb block
       && match TrayAppLifecycle.run_detached icon with
          | Some _ => true
          | None => false
          end
  /\ TrayAppLifecycle.thread_started (TrayAppLifecycle.start icon mac block).1
     = negb (mac && block) && negb (mac && TrayAppLifecycle.detached_ok icon)
  /\ TrayAppLifecycle.visibility_set (TrayAppLifecycle.start icon mac block).1
     = TrayAppLifecycle.thread_started (TrayAppLifecycle.start icon mac block).1
  /\ TrayAppLifecycle.start icon false block = TrayAppLifecycle.start icon false false.
Proof.
  unfold TrayAppLifecycle.start, TrayAppLifecycle.detached_ok.
  destruct mac, block; cbn [andb negb];
    destruct (TrayAppLifecycle.run_detached icon) as [[[]|e]|];
    repeat split.
Qed.

(** ** The client of the front-end extension *)

(** X20: [_invoke] returns whatever the page does; it calls the page at
    most once, through [invoke_extension_method] when the page has it, even
    if that raises, and through the legacy [invoke_extension] only when the
    page lacks the former; the arguments sent are the given ones, an empty
    dict standing in for none. *)
Theorem invoke_never_raises
    (p : TrayExtensionClient.page) (method : string) (args : pyval) :
  (TrayExtensionClient._invoke p method args).2 = Ok tt
  /\ sent (TrayExtensionClient._invoke p method args).1
     = (if can_invoke p then [(method, py_or args (VDict []))] else [])
  /\ TrayExtensionClient.legacy_calls (TrayExtensionClient._invoke p method args).1
     = match TrayExtensionClient.invoke_extension_method p,
             TrayExtensionClient.invoke_extension p with
       | None, Some _ =>
           [TrayExtensionClient.InvokeLegacy EXTENSION_NAME method
              (py_or args (VDict []))]
       | _, _ => []
       end.
Proof.
  unfold TrayExtensionClient._invoke, can_invoke.
  destruct (TrayExtensionClient.invoke_extension_method p) as [invoke|].
  - destruct (invoke EXTENSION_NAME method (py_or args (VDict []))) as [[]|e];
      destruct (TrayExtensionClient.invoke_extension p); repeat split.
  - destruct (TrayExtensionClient.invoke_extension p) as [invoke|];
      [destruct (invoke EXTENSION_NAME method (py_or args (VDict []))) as [[]|e]|];
      repeat split.
Qed.

(** X21: [set_menu] on nodes returns, whatever the nodes and the page; what
    it sends, when the page can be invoked, is one [setMenu] call whose
    [items] use the emitted keys only and normalise, on the receiving side
    or anywhere, to the same tree with falsy labels replaced by the
    placeholder and icons reset. *)
Theorem set_menu_sends_normalisable_items
    (p : TrayExtensionClient.page) (nodes : list MenuNode) :
  (TrayExtensionClient.set_menu p (TrayExtensionClient.Nodes nodes)).2 = Ok tt
  /\ exists emitted,
       sent (TrayExtensionClient.set_menu p (TrayExtensionClient.Nodes nodes)).1
       = (if can_invoke p
          then [("setMenu", VDict [("items", VList emitted)])] else [])
       /\ plain_menu (VList emitted) = true
       /\ _normalise_menu (VList emitted) = Ok (map renormalised nodes).
Proof.
  cbn [TrayExtensionClient.set_menu].
  assert (Hsent : forall args,
            truthy args = true ->
            (TrayExtensionClient._invoke p "setMenu" args).2 = Ok tt
            /\ sent (TrayExtensionClient._invoke p "setMenu" args).1
               = (if can_invoke p then [("setMenu", args)] else [])).
  { intros args Hargs.
    unfold TrayExtensionClient._invoke, can_invoke, py_or. rewrite Hargs.
    destruct (TrayExtensionClient.invoke_extension_method p) as [invoke|].
    - destruct (invoke EXTENSION_NAME "setMenu" args) as [[]|e];
        destruct (TrayExtensionClient.invoke_extension p); repeat split.
    - destruct (TrayExtensionClient.invoke_extension p) as [invoke|];
        [destruct (invoke EXTENSION_NAME "setMenu" args) as [[]|e]|];
        repeat split. }
  destruct (Hsent (VDict [("items", VList (menu_to_dict nodes))]) eq_refl)
    as [Hok Hargs].
  split; [exact Hok|]. exists (menu_to_dict nodes). split; [exact Hargs|]. split.
  - apply emitted_plain_list. apply Forall_forall. intros node _.
    apply emitted_plain_node.
  - apply renormalised_list. apply Forall_forall. intros node _.
    apply renormalised_node.
Qed.

(** X22: [set_menu] on a sequence that starts with a dict sends the whole
    sequence as it is, aliases and all, without normalising it; on an empty
    sequence it sends an empty list; on a sequence that starts with
    anything else it raises before the page is called or a line printed. *)
Theorem set_menu_forwards_dicts_verbatim
    (p : TrayExtensionClient.page) (first : pyval) (rest : list pyval) :
  TrayExtensionClient.set_menu p (TrayExtensionClient.Dicts [])
  = TrayExtensionClient._invoke p "setMenu" (VDict [("items", VList [])])
  /\ match first with
     | VDict _ =>
         TrayExtensionClient.set_menu p (TrayExtensionClient.Dicts (first :: rest))
         = TrayExtensionClient._invoke p "setMenu"
             (VDict [("items", VList (first :: rest))])
         /\ sent (TrayExtensionClient.set_menu p
                    (TrayExtensionClient.Dicts (first :: rest))).1
            = (if can_invoke p
               then [("setMenu", VDict [("items", VList (first :: rest))])]
               else [])
     | _ =>
         (TrayExtensionClient.set_menu p
            (TrayExtensionClient.Dicts (first :: rest))).1 = []
         /\ returned (TrayExtensionClient.set_menu p
                        (TrayExtensionClient.Dicts (first :: rest))).2 = false
     end.
Proof.
  split; [reflexivity|].
  destruct first as [| | | | |d]; try (split; reflexivity).
  split; [reflexivity|].
  cbn [TrayExtensionClient.set_menu].
  unfold TrayExtensionClient._invoke, can_invoke.
  destruct (TrayExtensionClient.invoke_extension_method p) as [invoke|].
  - destruct (invoke EXTENSION_NAME "setMenu" _) as [[]|e];
      destruct (TrayExtensionClient.invoke_extension p); reflexivity.
  - destruct (TrayExtensionClient.invoke_extension p) as [invoke|];
      [destruct (invoke EXTENSION_NAME "setMenu" _) as [[]|e]|]; reflexivity.
Qed.

(** [set_icon] on a page whose new method raises: the failure is printed,
    the legacy method is left alone, the call returns. *)
Example set_icon_on_failing_page :
  TrayExtensionClient.set_icon page_with_failing_method VNone
  = ([TrayExtensionClient.InvokeMethod "tray" "setIcon" (VDict [("path", VStr "")]);
      TrayExtensionClient.Said
        (TrayExtensionClient.InvokeFailed "setIcon" (UserError "not connected"))],
     Ok tt).
Proof. reflexivity. Qed.

(** ** The JSON form of a menu item *)

Lemma to_json_eq (self : TrayMenuItem.t) :
  TrayMenuItem.to_json self =
  VDict ([("id", VStr (TrayMenuItem.id self));
          ("type", VStr (TrayMenuItem.type self))]
         ++ match TrayMenuItem.label self with
            | Some s => [("label", VStr s)]
            | None => []
            end
         ++ match TrayMenuItem.checked self with
            | Some b => [("checked", VBool b)]
            | None => []
            end
         ++ match TrayMenuItem.enabled self with
            | Some b => [("enabled", VBool b)]
            | None => []
            end
         ++ match TrayMenuItem.children self with
            | Some (Sequence (kid :: kids)) =>
                [("items", VList (map TrayMenuItem.to_json (kid :: kids)))]
            | Some (Iterator kids) =>
                [("items", VList (map TrayMenuItem.to_json kids))]
            | _ => []
            end)%list.
Proof.
  destruct self as [i [l|] t [c|] [e|] [[[|kid kids]|kids]|]]; reflexivity.
Qed.

(** X23: the JSON form of an item always has [id] and [type]; it has
    [label], [checked], [enabled] exactly when the attribute is not [None],
    so also for an empty label and for [False]; it has [items] exactly when
    [children] is true: a list with a child, or an iterator, also one that
    yields no child, and then [items] holds the JSON forms of the children
    in order; and it has no other key and no key twice. *)
Theorem to_json_keys (self : TrayMenuItem.t) :
  exists d,
    TrayMenuItem.to_json self = VDict d
    /\ dict_get d "id" = VStr (TrayMenuItem.id self)
    /\ dict_get d "type" = VStr (TrayMenuItem.type self)
    /\ (has_key d "label", dict_get d "label")
       = match TrayMenuItem.label self with
         | Some s => (true, VStr s)
         | None => (false, VNone)
         end
    /\ (has_key d "checked", dict_get d "checked")
       = match TrayMenuItem.checked self with
         | Some b => (true, VBool b)
         | None => (false, VNone)
         end
    /\ (has_key d "enabled", dict_get d "enabled")
       = match TrayMenuItem.enabled self with
         | Some b => (true, VBool b)
         | None => (false, VNone)
         end
    /\ (has_key d "items", dict_get d "items")
       = match TrayMenuItem.children self with
         | Some (Sequence (kid :: kids)) =>
             (true, VList (map TrayMenuItem.to_json (kid :: kids)))
         | Some (Iterator kids) =>
             (true, VList (map TrayMenuItem.to_json kids))
         | Some (Sequence []) | None => (false, VNone)
         end
    /\ NoDup (map fst d)
    /\ Forall (fun k => k ∈ ["id"; "type"; "label"; "checked"; "enabled"; "items"])
         (map fst d).
Proof.
  eexists. split; [apply to_json_eq|].
  destruct self as [i [l|] t [c|] [e|] [[[|kid kids]|kids]|]];
    cbn [TrayMenuItem.id TrayMenuItem.type TrayMenuItem.label
         TrayMenuItem.checked TrayMenuItem.enabled TrayMenuItem.children app];
    (repeat split;
     [ apply (bool_decide_unpack _); vm_compute; reflexivity
     | repeat constructor; apply (bool_decide_unpack _); vm_compute; reflexivity ]).
Qed.

(** An iterator that yields nothing still gives the key [items], with an
    empty list; an empty list gives no key. *)
Example to_json_of_empty_iterator :
  TrayMenuItem.to_json
    (TrayMenuItem.mk "more" None "item" None None (Some (Iterator [])))
  = VDict [("id", VStr "more"); ("type", VStr "item"); ("items", VList [])]
  /\ TrayMenuItem.to_json
       (TrayMenuItem.mk "more" None "item" None None (Some (Sequence [])))
     = VDict [("id", VStr "more"); ("type", VStr "item")].
Proof. split; reflexivity. Qed.

(** A second call on an item whose children come from an iterator finds the
    iterator exhausted. *)
Example to_json_twice_on_iterator :
  TrayMenuItem.to_json
    (TrayMenuItem.mk "more" None "item" None None
       (Some (Iterator [TrayMenuItem.mk "quit" None "item" None None None])))
  = VDict [("id", VStr "more"); ("type", VStr "item");
           ("items", VList [VDict [("id", VStr "quit"); ("type", VStr "item")]])]
  /\ TrayMenuItem.to_json
       (TrayMenuItem.after_to_json
          (TrayMenuItem.mk "more" None "item" None None
             (Some (Iterator [TrayMenuItem.mk "quit" None "item" None None None]))))
     = VDict [("id", VStr "more"); ("type", VStr "item"); ("items", VList [])].
Proof. split; reflexivity. Qed.

(** Induction on items: a property of an item follows from the property of
    its children. *)
Lemma TrayMenuItem_tree_ind (P : TrayMenuItem.t -> Prop) :
  (forall self,
     (forall it, TrayMenuItem.children self = Some it -> Forall P (elements it)) ->
     P self) ->
  forall self, P self.
Proof.
  intros step. fix IH 1. intros [i l t c e kids].
  apply step. cbn. intros it Hkids.
  destruct kids as [[kids|kids]|]; [| |discriminate]; injection Hkids as <-;
    cbn [elements];
    induction kids as [|kid kids IHkids]; constructor;
    solve [apply IH | exact IHkids].
Qed.

Lemma tidy_eq (self : TrayMenuItem.t) :
  TrayMenuItem.tidy self =
  TrayMenuItem.mk (TrayMenuItem.id self) (TrayMenuItem.label self)
    (TrayMenuItem.type self) (TrayMenuItem.checked self)
    (TrayMenuItem.enabled self)
    match TrayMenuItem.children self with
    | Some (Sequence (kid :: kids)) =>
        Some (Sequence (map TrayMenuItem.tidy (kid :: kids)))
    | Some (Iterator (kid :: kids)) =>
        Some (Sequence (map TrayMenuItem.tidy (kid :: kids)))
    | Some (Iterator []) => Some (Iterator [])
    | _ => None
    end.
Proof. destruct self as [i l t c e [[[|kid kids]|[|kid kids]]|]]; reflexivity. Qed.

Lemma to_json_children_inj xs :
  Forall (fun x => forall y,
            TrayMenuItem.to_json x = TrayMenuItem.to_json y ->
            TrayMenuItem.tidy x = TrayMenuItem.tidy y) xs ->
  forall ys,
    map TrayMenuItem.to_json xs = map TrayMenuItem.to_json ys ->
    map TrayMenuItem.tidy xs = map TrayMenuItem.tidy ys.
Proof.
  induction 1 as [|x xs Hx _ IH]; intros [|y ys] H; try discriminate;
    [reflexivity|].
  cbn [map] in *. injection H as Hhead Htail.
  rewrite (Hx y Hhead), (IH ys Htail). reflexivity.
Qed.

(** X24: the JSON form determines the item: two items with the same JSON
    form are the same item at every depth, up to what the JSON form does
    not keep: the difference between no children and an empty list of
    children, and between a list and an iterator that yield the same
    children. *)
Theorem to_json_determines_item (a b : TrayMenuItem.t) :
  TrayMenuItem.to_json a = TrayMenuItem.to_json b ->
  TrayMenuItem.tidy a = TrayMenuItem.tidy b.
Proof.
  revert b. induction a as [a IH] using TrayMenuItem_tree_ind.
  intros b H. rewrite !to_json_eq in H. rewrite !tidy_eq.
  destruct a as [i l t c e kids], b as [i' l' t' c' e' kids'].
  cbn [TrayMenuItem.id TrayMenuItem.type TrayMenuItem.label
       TrayMenuItem.checked TrayMenuItem.enabled TrayMenuItem.children] in *.
  destruct l, l', c, c', e, e',
    kids as [[[|kid kids]|[|kid kids]]|], kids' as [[[|kid' kids']|[|kid' kids']]|];
    cbn [app] in H; try discriminate H; simplify_eq; try reflexivity.
  all: do 3 f_equal;
    apply (to_json_children_inj (kid :: kids) (IH _ eq_refl) (kid' :: kids'));
    cbn [map]; congruence.
Qed.

(** X24 at two items that differ in how they say they have no child. *)
Lemma to_json_determines_item_witness :
  TrayMenuItem.tidy
    (TrayMenuItem.mk "quit" (Some "Quit") "item" None (Some false) None)
  = TrayMenuItem.tidy
      (TrayMenuItem.mk "quit" (Some "Quit") "item" None (Some false)
         (Some (Sequence []))).
Proof.
  apply to_json_determines_item. reflexivity.
Defined.
